(** * Verification of [amadeus_tool.py] (amp86/The-PathFinder)

    A shallow embedding of the Amadeus flight and hotel clients.  The
    network is an oracle [provider : request -> outcome]; the program runs
    in a small monad that records every outbound request in a trace and
    carries the Python exceptions that may escape. *)

From Stdlib Require Import String Ascii List ZArith Bool Lia DecimalString.
Set Warnings "-register-all".
Import ListNotations.
Open Scope string_scope.
Open Scope Z_scope.

(* ------------------------------------------------------------------ *)
(** ** Python values *)

Module Py.

(** Values produced by [json.loads] (the decoded Python objects).  Numbers
    are integers; a [JObj] lists the items of the decoded dict in order. *)
Inductive json : Type :=
| JNull
| JBool (b : bool)
| JNum (z : Z)
| JStr (s : string)
| JArr (l : list json)
| JObj (kvs : list (string * json)).

(** Values stored in the [params], [data] and [headers] dicts. *)
Inductive pyval : Type :=
| PStr (s : string)
| PInt (z : Z)
| PNone.

Definition dict := list (string * pyval).

(** [d.get(k)] / [k in d] on a dict of the program. *)
Fixpoint dict_lookup (k : string) (d : dict) : option pyval :=
  match d with
  | [] => None
  | (k', v) :: d' => if String.eqb k k' then Some v else dict_lookup k d'
  end.

(** [d[k] = v]: an existing key keeps its position, a new one is appended. *)
Fixpoint dict_set (d : dict) (k : string) (v : pyval) : dict :=
  match d with
  | [] => [(k, v)]
  | (k', v') :: d' =>
      if String.eqb k k' then (k', v) :: d' else (k', v') :: dict_set d' k v
  end.

(** Python exceptions the code can meet.  [JSONDecodeError] is the one of
    [requests] (2.27 and later), a subclass of both [RequestException] and
    [ValueError]; [HTTPError] is raised by [raise_for_status] and carries
    the response; [ConnError] stands for the transport failures
    (connection errors, timeouts), which carry no response. *)
Record response : Type := {
  status : Z;
  reason : string;
  resp_url : string;
  text : string;
  body : string + json   (** [inl msg]: the text is not JSON *)
}.

Inductive exc : Type :=
| HTTPError (msg : string) (r : response)
| ConnError (msg : string)
| JSONDecodeError (msg : string)
| TypeError (msg : string)
| AttributeError (msg : string)
| ValueError (msg : string)
| KeyError (msg : string).

Definition is_request_exception (e : exc) : bool :=
  match e with
  | HTTPError _ _ | ConnError _ | JSONDecodeError _ => true
  | _ => false
  end.

(** [isinstance(e, (ValueError, KeyError, TypeError))] *)
Definition is_parse_exception (e : exc) : bool :=
  match e with
  | JSONDecodeError _ | ValueError _ | KeyError _ | TypeError _ => true
  | _ => false
  end.

(** [str(e)] *)
Definition exc_str (e : exc) : string :=
  match e with
  | HTTPError m _ | ConnError m | JSONDecodeError m | TypeError m
  | AttributeError m | ValueError m | KeyError m => m
  end.

(** [e.response] *)
Definition exc_response (e : exc) : option response :=
  match e with
  | HTTPError _ r => Some r
  | _ => None
  end.

(** [Response.__bool__] is [Response.ok]: false exactly when
    [raise_for_status] raises. *)
Definition response_truthy (r : response) : bool :=
  negb ((400 <=? status r) && (status r <? 600)).

(** Truth value of a decoded JSON value. *)
Definition json_truthy (j : json) : bool :=
  match j with
  | JNull => false
  | JBool b => b
  | JNum z => negb (z =? 0)
  | JStr s => negb (String.eqb s EmptyString)
  | JArr l => match l with [] => false | _ => true end
  | JObj l => match l with [] => false | _ => true end
  end.

Definition str_truthy (s : string) : bool := negb (String.eqb s EmptyString).

Definition opt_str_truthy (o : option string) : bool :=
  match o with Some s => str_truthy s | None => false end.

Definition type_name (j : json) : string :=
  match j with
  | JNull => "NoneType"
  | JBool _ => "bool"
  | JNum _ => "int"
  | JStr _ => "str"
  | JArr _ => "list"
  | JObj _ => "dict"
  end.

Fixpoint assoc (k : string) (kvs : list (string * json)) : option json :=
  match kvs with
  | [] => None
  | (k', v) :: kvs' => if String.eqb k k' then Some v else assoc k kvs'
  end.

(** [j.get(k, default)]: only a dict has a [get] method. *)
Definition py_get (j : json) (k : string) (default : json) : exc + json :=
  match j with
  | JObj kvs => inr (match assoc k kvs with Some v => v | None => default end)
  | _ => inl (AttributeError ("'" ++ type_name j ++ "' object has no attribute 'get'"))
  end.

(** [for h in j]: a dict yields its keys, a string its characters. *)
Definition py_iter (j : json) : exc + list json :=
  match j with
  | JArr l => inr l
  | JObj kvs => inr (map (fun kv => JStr (fst kv)) kvs)
  | JStr s => inr (map (fun c => JStr (String c EmptyString)) (list_ascii_of_string s))
  | _ => inl (TypeError ("'" ++ type_name j ++ "' object is not iterable"))
  end.

(** [s in hay] for strings. *)
Fixpoint str_contains (needle hay : string) : bool :=
  String.prefix needle hay ||
  match hay with
  | EmptyString => false
  | String _ hay' => str_contains needle hay'
  end.

(** [needle in j] for a string [needle]. *)
Definition py_in (needle : string) (j : json) : exc + bool :=
  match j with
  | JStr s => inr (str_contains needle s)
  | JArr l => inr (existsb (fun x => match x with JStr s => String.eqb s needle | _ => false end) l)
  | JObj kvs => inr (existsb (fun kv => String.eqb (fst kv) needle) kvs)
  | _ => inl (TypeError ("argument of type '" ++ type_name j ++ "' is not iterable"))
  end.

(** [lst[:n]] *)
Definition py_slice_to {A} (l : list A) (n : Z) : list A :=
  if 0 <=? n then firstn (Z.to_nat n) l
  else firstn (Z.to_nat (Z.of_nat (length l) + n)) l.

(** [str(n)] for an integer. *)
Definition z_str (z : Z) : string := NilZero.string_of_int (Z.to_int z).

Definition dq : ascii := ascii_of_nat 34.

Definition hex_digit (n : nat) : ascii :=
  if Nat.ltb n 10 then ascii_of_nat (48 + n) else ascii_of_nat (87 + n).

(** Characters that [repr] writes as [\xhh] ([str.isprintable] is false). *)
Definition nonprintable (c : ascii) : bool :=
  let n := nat_of_ascii c in
  Nat.ltb n 32 || (Nat.leb 127 n && Nat.leb n 160) || Nat.eqb n 173.

(** [repr(s)]: single quotes, unless [s] contains a single quote and no
    double quote. *)
Definition py_repr_str (s : string) : string :=
  let cs := list_ascii_of_string s in
  let q := if existsb (Ascii.eqb "'"%char) cs && negb (existsb (Ascii.eqb dq) cs)
           then dq else "'"%char in
  let esc (c : ascii) : string :=
    if Ascii.eqb c "\"%char then "\\"
    else if Ascii.eqb c q then String "\"%char (String q EmptyString)
    else if Nat.eqb (nat_of_ascii c) 9 then "\t"
    else if Nat.eqb (nat_of_ascii c) 10 then "\n"
    else if Nat.eqb (nat_of_ascii c) 13 then "\r"
    else if nonprintable c then
      String "\"%char (String "x"%char
        (String (hex_digit (Nat.div (nat_of_ascii c) 16))
          (String (hex_digit (Nat.modulo (nat_of_ascii c) 16)) EmptyString)))
    else String c EmptyString in
  String q (String.concat EmptyString (map esc cs) ++ String q EmptyString).

(** [repr(x)] of a decoded JSON value. *)
Fixpoint py_repr (j : json) : string :=
  match j with
  | JNull => "None"
  | JBool true => "True"
  | JBool false => "False"
  | JNum z => z_str z
  | JStr s => py_repr_str s
  | JArr l =>
      "[" ++ (fix go (l : list json) : string :=
                match l with
                | [] => EmptyString
                | [x] => py_repr x
                | x :: l' => py_repr x ++ ", " ++ go l'
                end) l ++ "]"
  | JObj kvs =>
      "{" ++ (fix go (kvs : list (string * json)) : string :=
                match kvs with
                | [] => EmptyString
                | [(k, v)] => py_repr_str k ++ ": " ++ py_repr v
                | (k, v) :: kvs' => py_repr_str k ++ ": " ++ py_repr v ++ ", " ++ go kvs'
                end) kvs ++ "}"
  end.

(** [str(x)], as used by f-strings. *)
Definition py_str (j : json) : string :=
  match j with JStr s => s | _ => py_repr j end.

(** The code points of a [str]: each byte of [s] is the code point
    U+0000..U+00FF of the same value (Latin-1), as in [py_repr_str]. *)
Definition code_point (c : ascii) : Z := Z.of_nat (nat_of_ascii c).

Definition code_points (s : string) : list Z := map code_point (list_ascii_of_string s).

(** [c.upper()] for one character, as code points: Unicode's full uppercase
    mapping of U+0000..U+00FF.  a-z and U+00E0..U+00FE (but U+00F7) move down
    by 32; U+00DF (sharp s) becomes "SS"; U+00B5 (micro sign) becomes U+039C
    and U+00FF becomes U+0178; the other characters are unchanged. *)
Definition char_upper (c : ascii) : list Z :=
  let n := code_point c in
  if (97 <=? n) && (n <=? 122) then [n - 32]
  else if n =? 223 then [83; 83]
  else if n =? 181 then [924]
  else if n =? 255 then [376]
  else if (224 <=? n) && (n <=? 254) && negb (n =? 247) then [n - 32]
  else [n].

(** [s.upper()], as the code points of the result (which can leave
    U+0000..U+00FF). *)
Definition py_upper (s : string) : list Z := flat_map char_upper (list_ascii_of_string s).

(** The [str] of code points in U+0000..U+00FF. *)
Definition str_of_code_points (l : list Z) : string :=
  string_of_list_ascii (map (fun z => ascii_of_N (Z.to_N z)) l).

Definition code_points_eqb (a b : list Z) : bool :=
  if list_eq_dec Z.eq_dec a b then true else false.

(** [u in l] for a [str] [u] (given by its code points) and a list of
    [str]. *)
Definition py_str_in (u : list Z) (l : list string) : bool :=
  existsb (fun s => code_points_eqb u (code_points s)) l.

(** [sep.join(l)]: every item must be a [str]. *)
Fixpoint py_join_from (i : Z) (sep : string) (l : list json) : exc + string :=
  match l with
  | [] => inr EmptyString
  | x :: l' =>
      match x with
      | JStr s =>
          match l' with
          | [] => inr s
          | _ => match py_join_from (i + 1) sep l' with
                 | inr r => inr (s ++ sep ++ r)
                 | inl e => inl e
                 end
          end
      | _ => inl (TypeError ("sequence item " ++ z_str i ++ ": expected str instance, "
                             ++ type_name x ++ " found"))
      end
  end.

Definition py_join (sep : string) (l : list json) : exc + string := py_join_from 0 sep l.

End Py.

(* ------------------------------------------------------------------ *)
(** ** Outbound requests and the program monad *)

Module Net.
Import Py.

Inductive meth : Type := POST | GET.

(** One call of [requests.post] / [requests.get]: [req_params] holds the
    form [data] of a POST and the query [params] of a GET. *)
Record request : Type := {
  req_method : meth;
  req_url : string;
  req_headers : dict;
  req_params : dict;
  req_timeout : option Z
}.

(** What the network answers: a response, or a transport failure
    (connection error, timeout) that [requests] raises as a
    [RequestException] without a response. *)
Inductive outcome : Type :=
| Resp (r : response)
| Fail (msg : string).

(** Results are an escaping exception or a value; the state is the trace of
    the requests issued so far, oldest first. *)
Definition M (A : Type) : Type := list request -> (exc + A) * list request.

Definition ret {A} (a : A) : M A := fun tr => (inr a, tr).

Definition bind {A B} (m : M A) (k : A -> M B) : M B :=
  fun tr => match m tr with
            | (inl e, tr') => (inl e, tr')
            | (inr a, tr') => k a tr'
            end.

Definition raise {A} (e : exc) : M A := fun tr => (inl e, tr).

(** A pure Python step that may raise. *)
Definition lift {A} (x : exc + A) : M A := fun tr => (x, tr).

(** [try: m except ...: h(e)]; [h] re-raises what no clause catches. *)
Definition try_except {A} (m : M A) (h : exc -> M A) : M A :=
  fun tr => match m tr with
            | (inl e, tr') => h e tr'
            | (inr a, tr') => (inr a, tr')
            end.

Notation "x <- m ;; k" := (bind m (fun x => k))
  (at level 61, m at next level, right associativity).

Section Requests.
Variable provider : request -> outcome.

Definition send (q : request) : M response :=
  fun tr => match provider q with
            | Resp r => (inr r, (tr ++ [q])%list)
            | Fail msg => (inl (ConnError msg), (tr ++ [q])%list)
            end.

End Requests.

(** [response.raise_for_status()] *)
Definition raise_for_status (r : response) : M unit :=
  if (400 <=? status r) && (status r <? 500) then
    raise (HTTPError (z_str (status r) ++ " Client Error: " ++ reason r
                      ++ " for url: " ++ resp_url r) r)
  else if (500 <=? status r) && (status r <? 600) then
    raise (HTTPError (z_str (status r) ++ " Server Error: " ++ reason r
                      ++ " for url: " ++ resp_url r) r)
  else ret tt.

(** [response.json()] *)
Definition resp_json (r : response) : M json :=
  match body r with
  | inl msg => raise (JSONDecodeError msg)
  | inr j => ret j
  end.

End Net.

(* ------------------------------------------------------------------ *)
(** ** [amadeus_tool.py] *)

Module Amadeus.
Import Py Net.

(** The module-level credentials [AMADEUS_API_KEY] and [AMADEUS_API_SECRET],
    read with [os.getenv] at import time ([None] when unset). *)
Record env : Type := {
  AMADEUS_API_KEY : option string;
  AMADEUS_API_SECRET : option string
}.

Definition TOKEN_URL := "https://test.api.amadeus.com/v1/security/oauth2/token".
Definition FLIGHT_OFFERS_URL := "https://test.api.amadeus.com/v2/shopping/flight-offers".

Definition opt_pyval (o : option string) : pyval :=
  match o with Some s => PStr s | None => PNone end.

(** The form body of the token request (both call sites). *)
Definition token_data (E : env) : dict :=
  [("grant_type", PStr "client_credentials");
   ("client_id", opt_pyval (AMADEUS_API_KEY E));
   ("client_secret", opt_pyval (AMADEUS_API_SECRET E))].

Definition form_headers : dict :=
  [("Content-Type", PStr "application/x-www-form-urlencoded")].

Definition bearer (token : json) : dict :=
  [("Authorization", PStr ("Bearer " ++ py_str token))].

Definition config_error :=
  "Error: Amadeus API Key or Secret is not set in environment variables.".

(** The query of the flight-offers GET (lines 70-89). *)
Definition flight_params (origin_location_code destination_location_code
    departure_date : string) (adults : Z) (non_stop : bool)
    (return_date : option string) (children infants : Z)
    (travel_class : option string) (max_results : Z) : dict :=
  let params :=
    [("originLocationCode", PStr origin_location_code);
     ("destinationLocationCode", PStr destination_location_code);
     ("departureDate", PStr departure_date);
     ("adults", PInt adults);
     ("nonStop", PStr (if non_stop then "true" else "false"));
     ("max", PInt max_results)] in
  let params :=
    if opt_str_truthy return_date
    then dict_set params "returnDate" (opt_pyval return_date) else params in
  let params :=
    if children >? 0 then dict_set params "children" (PInt children) else params in
  let params :=
    if infants >? 0 then dict_set params "infants" (PInt infants) else params in
  match travel_class with
  | Some tc =>
      if str_truthy tc then
        if py_str_in (py_upper tc) ["ECONOMY"; "PREMIUM_ECONOMY"; "BUSINESS"; "FIRST"]
        (* here [travel_class.upper()] is one of these ASCII names *)
        then dict_set params "travelClass" (PStr (str_of_code_points (py_upper tc)))
        else params
      else params
  | None => params
  end.

Definition token_request (E : env) : request :=
  {| req_method := POST; req_url := TOKEN_URL; req_headers := form_headers;
     req_params := token_data E; req_timeout := None |}.

Definition flight_request (token : json) (params : dict) : request :=
  {| req_method := GET; req_url := FLIGHT_OFFERS_URL; req_headers := bearer token;
     req_params := params; req_timeout := None |}.

Section Flights.
Variable provider : request -> outcome.
Variable E : env.

(** [_get_amadeus_token()]: the value returned is a [str] (an error
    message) or whatever [.get("access_token")] yields. *)
Definition _get_amadeus_token : M json :=
  if negb (opt_str_truthy (AMADEUS_API_KEY E))
     || negb (opt_str_truthy (AMADEUS_API_SECRET E))
  then ret (JStr config_error)
  else
    try_except
      (response <- send provider (token_request E) ;;
       _ <- raise_for_status response ;;
       j <- resp_json response ;;
       lift (py_get j "access_token" JNull))
      (fun e =>
         if is_request_exception e
         then ret (JStr ("Error fetching Amadeus token: " ++ exc_str e))
         else raise e).

(** The [try] block of lines 91-99. *)
Definition flight_get (token : json) (params : dict) : M json :=
  try_except
    (response <- send provider (flight_request token params) ;;
     _ <- raise_for_status response ;;
     j <- resp_json response ;;
     ret (JStr (py_str j)))
    (fun e =>
       if is_request_exception e then
         match exc_response e with
         | Some r => ret (JStr ("Error from Amadeus API: " ++ text r))
         | None => ret (JStr ("Error fetching flight offers: " ++ exc_str e))
         end
       else raise e).

(** [search_amadeus_flights(...)]: declared [-> str]; the early return
    hands back the token value itself. *)
Definition search_amadeus_flights (origin_location_code destination_location_code
    departure_date : string) (adults : Z) (non_stop : bool)
    (return_date : option string) (children infants : Z)
    (travel_class : option string) (max_results : Z) : M json :=
  token <- _get_amadeus_token ;;
  is_err <- lift (py_in "Error" token) ;;
  if is_err then ret token
  else
    let params := flight_params origin_location_code destination_location_code
                    departure_date adults non_stop return_date children infants
                    travel_class max_results in
    flight_get token params.

End Flights.

(** The [step] tag of a hotel error: ["auth"], [1] or [2]. *)
Inductive step : Type := StepAuth | Step1 | Step2.

(** The dict returned by [search_amadeus_hotels]: the offers payload, or
    [{"error": .., "details": .., "step": ..}] ([details] may be absent). *)
Inductive hotel_result : Type :=
| HOk (payload : json)
| HErr (error : string) (details : option string) (tag : step).

(** [getattr(e, "response", None).text if getattr(e, "response", None)
    else str(e)]: a response is truthy only when its status is below 400. *)
Definition details (e : exc) : string :=
  match exc_response e with
  | Some r => if response_truthy r then text r else exc_str e
  | None => exc_str e
  end.

Definition sbind {A B} (x : exc + A) (k : A -> exc + B) : exc + B :=
  match x with inl e => inl e | inr a => k a end.

(** [[h.get("hotelId") for h in items if h.get("hotelId")]] *)
Fixpoint collect_hotel_ids (items : list json) : exc + list json :=
  match items with
  | [] => inr []
  | h :: items' =>
      sbind (py_get h "hotelId" JNull) (fun v =>
      sbind (collect_hotel_ids items') (fun rest =>
      inr (if json_truthy v then v :: rest else rest)))
  end.

(** Lines 152-153: [hotels_data = list_resp.json().get("data", [])] and the
    comprehension cut to [[:max_hotels]]. *)
Definition extract_hotel_ids (j : json) (max_hotels : Z) : exc + list json :=
  sbind (py_get j "data" (JArr [])) (fun hotels_data =>
  sbind (py_iter hotels_data) (fun items =>
  sbind (collect_hotel_ids items) (fun ids =>
  inr (py_slice_to ids max_hotels)))).

(** The [offer_params] dict of lines 165-185. *)
Definition offer_params (hotel_ids_joined check_in_date check_out_date : string)
    (adults room_quantity : Z) (currency price_range view : string) : dict :=
  let offer_params :=
    [("hotelIds", PStr hotel_ids_joined);
     ("checkInDate", PStr check_in_date);
     ("checkOutDate", PStr check_out_date);
     ("adults", PInt adults);
     ("roomQuantity", PInt room_quantity);
     ("includeClosed", PStr "true");
     ("bestRateOnly", PStr "false");
     ("priceRange", PStr price_range);
     ("view", PStr "FULL")] in
  let offer_params :=
    if str_truthy currency then dict_set offer_params "currency" (PStr currency)
    else offer_params in
  let offer_params :=
    if str_truthy price_range then dict_set offer_params "priceRange" (PStr price_range)
    else offer_params in
  if str_truthy view then dict_set offer_params "view" (PStr view) else offer_params.

Definition hotel_base (use_test_env : bool) : string :=
  if use_test_env then "https://test.api.amadeus.com" else "https://api.amadeus.com".

Definition hotel_token_url (use_test_env : bool) :=
  hotel_base use_test_env ++ "/v1/security/oauth2/token".
Definition hotel_list_url (use_test_env : bool) :=
  hotel_base use_test_env ++ "/v1/reference-data/locations/hotels/by-city".
Definition hotel_offers_url (use_test_env : bool) :=
  hotel_base use_test_env ++ "/v3/shopping/hotel-offers".

Definition TIMEOUT : Z := 20.

Definition auth_request (E : env) (use_test_env : bool) : request :=
  {| req_method := POST; req_url := hotel_token_url use_test_env;
     req_headers := form_headers; req_params := token_data E;
     req_timeout := Some TIMEOUT |}.

Definition list_request (use_test_env : bool) (access_token : json)
    (city_code : string) (radius_km : Z) : request :=
  {| req_method := GET; req_url := hotel_list_url use_test_env;
     req_headers := bearer access_token;
     req_params := [("cityCode", PStr city_code); ("radius", PInt radius_km);
                    ("radiusUnit", PStr "KM")];
     req_timeout := Some TIMEOUT |}.

Definition offers_request (use_test_env : bool) (access_token : json)
    (params : dict) : request :=
  {| req_method := GET; req_url := hotel_offers_url use_test_env;
     req_headers := bearer access_token; req_params := params;
     req_timeout := Some TIMEOUT |}.

Section Hotels.
Variable provider : request -> outcome.
Variable E : env.

(** --- AUTH --- (lines 129-143).  [inl r]: the function returns [r];
    [inr access_token]: the chain goes on. *)
Definition hotel_auth (use_test_env : bool) : M (hotel_result + json) :=
  try_except
    (token_resp <- send provider (auth_request E use_test_env) ;;
     _ <- raise_for_status token_resp ;;
     j <- resp_json token_resp ;;
     access_token <- lift (py_get j "access_token" JNull) ;;
     if negb (json_truthy access_token)
     then ret (inl (HErr "No access_token in token response" (Some (text token_resp)) StepAuth))
     else ret (inr access_token))
    (fun e =>
       if is_request_exception e
       then ret (inl (HErr "Amadeus authentication failed" (Some (details e)) StepAuth))
       else raise e).

(** --- STEP 1 --- (lines 148-158). *)
Definition hotel_list (use_test_env : bool) (access_token : json)
    (city_code : string) (radius_km max_hotels : Z) : M (hotel_result + list json) :=
  try_except
    (list_resp <- send provider (list_request use_test_env access_token city_code radius_km) ;;
     _ <- raise_for_status list_resp ;;
     j <- resp_json list_resp ;;
     hotel_ids <- lift (extract_hotel_ids j max_hotels) ;;
     ret (inr hotel_ids))
    (fun e =>
       if is_request_exception e
       then ret (inl (HErr "Hotel List API error" (Some (details e)) Step1))
       else if is_parse_exception e
       then ret (inl (HErr ("Could not parse hotel IDs: " ++ exc_str e) None Step1))
       else raise e).

(** --- STEP 2 --- (lines 187-194). *)
Definition hotel_offers (use_test_env : bool) (access_token : json)
    (params : dict) : M hotel_result :=
  try_except
    (offer_resp <- send provider (offers_request use_test_env access_token params) ;;
     _ <- raise_for_status offer_resp ;;
     j <- resp_json offer_resp ;;
     ret (HOk j))
    (fun e =>
       if is_request_exception e
       then ret (HErr "Hotel Offers API error" (Some (details e)) Step2)
       else raise e).

Definition search_amadeus_hotels (city_code check_in_date check_out_date : string)
    (adults : Z) (use_test_env : bool) (radius_km max_hotels : Z)
    (currency price_range : string) (room_quantity : Z) (view : string)
    : M hotel_result :=
  auth <- hotel_auth use_test_env ;;
  match auth with
  | inl r => ret r
  | inr access_token =>
      listed <- hotel_list use_test_env access_token city_code radius_km max_hotels ;;
      match listed with
      | inl r => ret r
      | inr [] =>
          ret (HErr ("No hotels found in " ++ city_code
                     ++ ". Check city code or increase radius.") None Step1)
      | inr hotel_ids =>
          joined <- lift (py_join "," hotel_ids) ;;
          hotel_offers use_test_env access_token
            (offer_params joined check_in_date check_out_date adults room_quantity
               currency price_range view)
      end
  end.

End Hotels.

End Amadeus.

(* ------------------------------------------------------------------ *)
(** ** Concrete providers *)

Module Fixtures.
Import Py Net Amadeus.

Fixpoint dumps (j : json) : string :=
  match j with
  | JNull => "null"
  | JBool true => "true"
  | JBool false => "false"
  | JNum z => z_str z
  | JStr s => String dq (s ++ String dq EmptyString)
  | JArr l =>
      "[" ++ (fix go (l : list json) : string :=
                match l with
                | [] => EmptyString
                | [x] => dumps x
                | x :: l' => dumps x ++ ", " ++ go l'
                end) l ++ "]"
  | JObj kvs =>
      "{" ++ (fix go (kvs : list (string * json)) : string :=
                match kvs with
                | [] => EmptyString
                | [(k, v)] => String dq (k ++ String dq EmptyString) ++ ": " ++ dumps v
                | (k, v) :: kvs' =>
                    String dq (k ++ String dq EmptyString) ++ ": " ++ dumps v ++ ", " ++ go kvs'
                end) kvs ++ "}"
  end.

(** A 200 response whose text is the JSON document [j]. *)
Definition ok (url : string) (j : json) : response :=
  {| status := 200; reason := "OK"; resp_url := url; text := dumps j; body := inr j |}.

Definition creds : env := {| AMADEUS_API_KEY := Some "key"; AMADEUS_API_SECRET := Some "secret" |}.
Definition no_creds : env := {| AMADEUS_API_KEY := None; AMADEUS_API_SECRET := None |}.

Definition two_hotels : json :=
  JObj [("data", JArr [JObj [("hotelId", JStr "H1")]; JObj [("hotelId", JStr "H2")]])].

(** A provider whose token endpoint answers with [token_body], whose
    hotel list holds [list_body] and whose offers/flights endpoints
    answer with [offers_body]. *)
Definition provider_of (token_body list_body offers_body : json) (q : request) : outcome :=
  let u := req_url q in
  if String.eqb u TOKEN_URL || String.eqb u (hotel_token_url true) then Resp (ok u token_body)
  else if String.eqb u (hotel_list_url true) then Resp (ok u list_body)
  else Resp (ok u offers_body).

Definition good_token : json := JObj [("access_token", JStr "abc")].

(** A request whose answer makes the handlers of the code fire: a transport
    failure, a status [raise_for_status] rejects, or a text that is not JSON. *)
Definition failed (o : outcome) : bool :=
  match o with
  | Fail _ => true
  | Resp r => negb (response_truthy r) || match body r with inl _ => true | inr _ => false end
  end.

(** The [(method, url)] of the three hotel stages, in order. *)
Definition stage_urls (use_test_env : bool) : list (meth * string) :=
  [(POST, hotel_token_url use_test_env); (GET, hotel_list_url use_test_env);
   (GET, hotel_offers_url use_test_env)].

(** The [hotelId] field of an item of the provider's hotel list. *)
Definition hotel_id_field (h : json) : json :=
  match h with
  | JObj kvs => match assoc "hotelId" kvs with Some v => v | None => JNull end
  | _ => JNull
  end.

(** [l1] is [l2] with some items left out, the rest kept in order. *)
Inductive sublist {A : Type} : list A -> list A -> Prop :=
| sublist_nil : sublist [] []
| sublist_skip x l1 l2 : sublist l1 l2 -> sublist l1 (x :: l2)
| sublist_keep x l1 l2 : sublist l1 l2 -> sublist (x :: l1) (x :: l2).

Definition offers_json : json := JObj [("data", JArr [JBool true])].

Definition happy : request -> outcome := provider_of good_token two_hotels offers_json.

(** The token endpoint answers 200 with a JSON object without a token. *)
Definition no_token : request -> outcome :=
  provider_of (JObj [("token_type", JStr "Bearer")]) two_hotels offers_json.

(** The token endpoint answers 200 with a JSON array. *)
Definition array_token : request -> outcome := provider_of (JArr []) two_hotels offers_json.

(** The hotel list is empty. *)
Definition empty_list : request -> outcome :=
  provider_of good_token (JObj [("data", JArr [])]) offers_json.

(** The hotel list endpoint answers 200 with a text that is not JSON. *)
Definition html_list (q : request) : outcome :=
  if String.eqb (req_url q) (hotel_list_url true) then
    Resp {| status := 200; reason := "OK"; resp_url := req_url q; text := "<html></html>";
            body := inl "Expecting value: line 1 column 1 (char 0)" |}
  else happy q.

(** A 2xx token response whose JSON object has no [access_token]. *)
Definition lacks_token (o : outcome) : bool :=
  match o with
  | Resp r =>
      response_truthy r &&
      match body r with
      | inr (JObj kvs) => match assoc "access_token" kvs with None => true | Some _ => false end
      | _ => false
      end
  | Fail _ => false
  end.

Definition VALID_CLASSES := ["ECONOMY"; "PREMIUM_ECONOMY"; "BUSINESS"; "FIRST"].

End Fixtures.

(* ------------------------------------------------------------------ *)
(** ** [src/agents/agent.py]: [run_session] *)

Module Agent.
Import Py.

Definition APP_NAME := "agents".
Definition USER_ID := "default".

(** The argument [user_queries: list[str] | str = None]. *)
Inductive queries : Type :=
| QNone
| QStr (s : string)
| QList (l : list string).

(** The fields of an ADK event that the loop reads. *)
Record part : Type := { part_text : option string }.
Record content : Type := { parts : option (list part) }.
Record event : Type := { author : string; ev_content : option content }.
Record session : Type := { session_id : string }.

(** What [run_session] does that can be observed: a [print] call (its
    arguments joined by a space), or a message handed to
    [runner_instance.run_async] for a session id. *)
Inductive effect : Type :=
| Printed (line : string)
| Sent (sid : string) (msg : string).

(** The coroutine as a function of the effects so far. *)
Definition Run (A : Type) : Type := list effect -> (exc + A) * list effect.

Definition rret {A} (a : A) : Run A := fun tr => (inr a, tr).

Definition rbind {A B} (m : Run A) (k : A -> Run B) : Run B :=
  fun tr => match m tr with
            | (inl e, tr') => (inl e, tr')
            | (inr a, tr') => k a tr'
            end.

Definition rprint (line : string) : Run unit := fun tr => (inr tt, (tr ++ [Printed line])%list).

Definition rraise {A} (e : exc) : Run A := fun tr => (inl e, tr).

Notation "x <-- m ;; k" := (rbind m (fun x => k))
  (at level 61, m at next level, right associativity).

Definition nl : string := String (ascii_of_nat 10) EmptyString.

(** [event.content and event.content.parts] and then
    [event.content.parts[0].text != "None" and event.content.parts[0].text]:
    the text the loop prints, if any. *)
Definition shown_text (ev : event) : option string :=
  match ev_content ev with
  | Some c =>
      match parts c with
      | Some (p :: _) =>
          match part_text p with
          | Some t => if negb (String.eqb t "None") && str_truthy t then Some t else None
          | None => None
          end
      | _ => None
      end
  | None => None
  end.

(** [if user_queries:] *)
Definition queries_truthy (u : queries) : bool :=
  match u with
  | QNone => false
  | QStr s => str_truthy s
  | QList l => match l with [] => false | _ => true end
  end.

(** [if type(user_queries) == str: user_queries = [user_queries]] *)
Definition as_list (u : queries) : list string :=
  match u with
  | QNone => []
  | QStr s => [s]
  | QList l => l
  end.

Section RunSession.
(** [session_service.create_session(...)] and [session_service.get_session(...)]
    for [APP_NAME], [USER_ID] and the session name: the first may raise, the
    second may raise or return [None]. *)
Variable create_session : string -> exc + session.
Variable get_session : string -> exc + option session.
(** What iterating [runner_instance.run_async] gives for a new message,
    given the session id and everything that happened before: the events it
    yields, then the exception it raises, if any (for example ADK's
    [ValueError] when its session service does not know the session). *)
Variable run_async : string -> list effect -> string -> list event * option exc.

(** [runner_instance.run_async(user_id=USER_ID, session_id=session.id, ...)] *)
Definition send_message (session : option session) (q : string) : Run (list event * option exc) :=
  fun tr => match session with
            | None => (inl (AttributeError "'NoneType' object has no attribute 'id'"), tr)
            | Some s => (inr (run_async (session_id s) tr q), (tr ++ [Sent (session_id s) q])%list)
            end.

Fixpoint print_events (evs : list event) : Run unit :=
  match evs with
  | [] => rret tt
  | ev :: evs' =>
      _ <-- match shown_text ev with
            | Some t => rprint (author ev ++ " > " ++ " " ++ t)
            | None => rret tt
            end ;;
      print_events evs'
  end.

(** [async for event in ...]: the body of the loop for each yielded event;
    an exception of the stream leaves the loop and [run_session]. *)
Definition print_stream (st : list event * option exc) : Run unit :=
  _ <-- print_events (fst st) ;;
  match snd st with
  | Some e => rraise e
  | None => rret tt
  end.

(** [for query in user_queries: ...] (lines 74-91). *)
Fixpoint process_queries (session : option session) (qs : list string) : Run unit :=
  match qs with
  | [] => rret tt
  | q :: qs' =>
      _ <-- rprint (nl ++ "User > " ++ q) ;;
      st <-- send_message session q ;;
      _ <-- print_stream st ;;
      process_queries session qs'
  end.

(** [run_session(runner_instance, user_queries, session_service, session_name)];
    the bare [except:] turns any failure of [create_session] into a call of
    [get_session]. *)
Definition run_session (user_queries : queries) (session_name : string) : Run unit :=
  _ <-- rprint (nl ++ " ### Session: " ++ session_name) ;;
  session <-- (fun tr => match create_session session_name with
                         | inr s => (inr (Some s), tr)
                         | inl _ => (get_session session_name, tr)
                         end) ;;
  if queries_truthy user_queries
  then process_queries session (as_list user_queries)
  else rprint "No queries!".

End RunSession.

(** The [(session id, message)] pairs handed to the runner, in order. *)
Definition sent_messages (tr : list effect) : list (string * string) :=
  flat_map (fun e => match e with Sent sid q => [(sid, q)] | Printed _ => [] end) tr.

Definition event_line (ra : string -> list effect -> string -> list event * option exc)
    (line : string) : Prop :=
  exists ev t sid h q, In ev (fst (ra sid h q))
    /\ (exists c p ps, ev_content ev = Some c /\ parts c = Some (p :: ps) /\ part_text p = Some t)
    /\ t <> "None" /\ t <> EmptyString /\ line = author ev ++ " > " ++ " " ++ t.

(** Session services and a runner used by the sample runs. *)
Definition create_ok (name : string) : exc + session := inr {| session_id := name |}.
Definition create_fails (name : string) : exc + session :=
  inl (ValueError ("Session " ++ name ++ " already exists")).
Definition get_nothing (name : string) : exc + option session := inr None.

Definition reply (t : option string) : event :=
  {| author := "agent"; ev_content := Some {| parts := Some [{| part_text := t |}] |} |}.

Definition echo (sid : string) (tr : list effect) (q : string) : list event * option exc :=
  ([reply (Some ("re: " ++ q)); reply (Some "None"); reply None;
    {| author := "agent"; ev_content := None |}], None).

(** A runner whose session service does not know the session: it answers
    the first message, then raises for the next one. *)
Definition forgets (sid : string) (tr : list effect) (q : string) : list event * option exc :=
  if existsb (fun e => match e with Sent _ _ => true | Printed _ => false end) tr
  then ([], Some (ValueError ("Session not found: " ++ sid)))
  else ([reply (Some ("re: " ++ q))], None).

End Agent.

(* ------------------------------------------------------------------ *)
(** ** More providers *)

Module Samples.
Import Py Net Amadeus Fixtures.

(** The message [raise_for_status] gives its [HTTPError] for a status in
    [400, 600). *)
Definition http_error_message (r : response) : string :=
  z_str (status r) ++ (if status r <? 500 then " Client Error: " else " Server Error: ")
  ++ reason r ++ " for url: " ++ resp_url r.

(** Answers [o] at the URL [u], as [base] elsewhere. *)
Definition fail_at (u : string) (o : outcome) (base : request -> outcome) (q : request) : outcome :=
  if String.eqb (req_url q) u then o else base q.

Definition unauthorized_resp (u : string) : response :=
  {| status := 401; reason := "Unauthorized"; resp_url := u; text := "{}"; body := inr (JObj []) |}.

Definition unauthorized (u : string) : outcome := Resp (unauthorized_resp u).

Definition down : outcome := Fail "Connection refused".

Definition not_json (u : string) : outcome :=
  Resp {| status := 200; reason := "OK"; resp_url := u; text := "<html></html>";
          body := inl "Expecting value: line 1 column 1 (char 0)" |}.

Definition token_is (t : json) : request -> outcome :=
  provider_of (JObj [("access_token", t)]) two_hotels offers_json.

Definition list_is (j : json) : request -> outcome := provider_of good_token j offers_json.

End Samples.

(* ------------------------------------------------------------------ *)
(** ** Properties *)

Module Facts.
Import Py Net Amadeus Fixtures.

Ltac unfold_monad :=
  unfold bind, ret, raise, lift, try_except, send, raise_for_status, resp_json in *.

Ltac split_matches :=
  repeat match goal with
         | |- context [match ?x with _ => _ end] =>
             let H := fresh "Hm" in destruct x eqn:H
         end.

Lemma dict_lookup_set k k' v d :
  dict_lookup k (dict_set d k' v) = if String.eqb k k' then Some v else dict_lookup k d.
Proof.
  induction d as [|[k0 v0] d IH]; simpl.
  - reflexivity.
  - destruct (String.eqb k' k0) eqn:E1; simpl.
    + apply String.eqb_eq in E1; subst. destruct (String.eqb k k0); reflexivity.
    + destruct (String.eqb k k0) eqn:E2.
      * apply String.eqb_eq in E2; subst. rewrite String.eqb_sym, E1. reflexivity.
      * exact IH.
Qed.

Lemma rfs_cases r tr :
  (response_truthy r = true /\ raise_for_status r tr = (inr tt, tr)) \/
  (response_truthy r = false /\ exists msg, raise_for_status r tr = (inl (HTTPError msg r), tr)).
Proof.
  unfold raise_for_status, response_truthy, raise, ret.
  destruct (400 <=? status r) eqn:A, (status r <? 500) eqn:B,
           (500 <=? status r) eqn:C, (status r <? 600) eqn:D; simpl; eauto;
    rewrite ?Z.leb_le, ?Z.leb_gt, ?Z.ltb_lt, ?Z.ltb_ge in *; lia.
Qed.

Ltac case_all :=
  repeat (match goal with
          | |- context [match ?x with _ => _ end] =>
              match x with
              | context [match _ with _ => _ end] => fail 1
              | _ => let H := fresh "Hm" in destruct x eqn:H
              end
          end; cbn -[raise_for_status] in *).

Ltac close_stage :=
  eexists; split; [reflexivity|]; split;
  [ intros ? Hx; inversion Hx; subst;
    first [solve [eauto] | solve [left; eauto] | solve [right; eauto]]
  | let Hf := fresh "Hf" in
    intros Hf; eauto; exfalso; revert Hf;
    repeat match goal with H : _ = _ |- _ => progress rewrite H end;
    cbn; let Hf := fresh "Hf" in intros Hf; discriminate Hf ].

Lemma hotel_auth_run provider E use tr :
  exists x, hotel_auth provider E use tr = (x, (tr ++ [auth_request E use])%list)
    /\ (forall r, x = inr (inl r) -> exists m d, r = HErr m d StepAuth)
    /\ (failed (provider (auth_request E use)) = true ->
        exists m d, x = inr (inl (HErr m d StepAuth))).
Proof.
  unfold hotel_auth, try_except, bind, send, lift, ret, raise, resp_json.
  destruct (provider (auth_request E use)) as [r|msg] eqn:Hp; cbn -[raise_for_status].
  - destruct (rfs_cases r (tr ++ [auth_request E use])%list) as [[Ht Hr]|[Ht [m Hr]]];
      rewrite Hr; cbn -[raise_for_status]; case_all; close_stage.
  - close_stage.
Qed.

Lemma hotel_list_run provider use tok city radius max tr :
  exists x, hotel_list provider use tok city radius max tr
            = (x, (tr ++ [list_request use tok city radius])%list)
    /\ (forall r, x = inr (inl r) -> exists m d, r = HErr m d Step1)
    /\ (failed (provider (list_request use tok city radius)) = true ->
        exists m d, x = inr (inl (HErr m d Step1))).
Proof.
  unfold hotel_list, try_except, bind, send, lift, ret, raise, resp_json.
  destruct (provider (list_request use tok city radius)) as [r|msg] eqn:Hp;
    cbn -[raise_for_status extract_hotel_ids].
  - destruct (rfs_cases r (tr ++ [list_request use tok city radius])%list)
      as [[Ht Hr]|[Ht [m Hr]]];
      rewrite Hr; cbn -[raise_for_status extract_hotel_ids]; case_all; close_stage.
  - close_stage.
Qed.

Lemma hotel_offers_run provider use tok params tr :
  exists x, hotel_offers provider use tok params tr
            = (x, (tr ++ [offers_request use tok params])%list)
    /\ (forall r, x = inr r -> (exists j, r = HOk j) \/ exists m d, r = HErr m d Step2)
    /\ (failed (provider (offers_request use tok params)) = true ->
        exists m d, x = inr (HErr m d Step2)).
Proof.
  unfold hotel_offers, try_except, bind, send, lift, ret, raise, resp_json.
  destruct (provider (offers_request use tok params)) as [r|msg] eqn:Hp; cbn -[raise_for_status].
  - destruct (rfs_cases r (tr ++ [offers_request use tok params])%list)
      as [[Ht Hr]|[Ht [m Hr]]];
      rewrite Hr; cbn -[raise_for_status]; case_all; close_stage.
  - close_stage.
Qed.

Ltac use_failed :=
  match goal with
  | Hf : failed ?o = true, H2 : failed ?o = true -> _ |- _ =>
      let m := fresh "m" in let d := fresh "d" in let Hc := fresh "Hc" in
      destruct (H2 Hf) as [m [d Hc]]; clear Hf;
      first [discriminate Hc | injection Hc; intros; subst; eauto]
  end.

Ltac close_run k :=
  split; [exists k; split; [lia | reflexivity] |];
  repeat split; intros;
  repeat match goal with
         | H : nth_error _ _ = Some _ |- _ =>
             cbn in H; first [discriminate H | injection H as <-]
         end;
  try discriminate; try reflexivity; try use_failed; eauto.

Lemma get_token_trace provider E tr :
  _get_amadeus_token provider E tr = (inr (JStr config_error), tr) \/
  snd (_get_amadeus_token provider E tr) = (tr ++ [token_request E])%list.
Proof.
  unfold _get_amadeus_token, try_except, bind, send, lift, ret, raise, resp_json.
  destruct (negb (opt_str_truthy (AMADEUS_API_KEY E))
            || negb (opt_str_truthy (AMADEUS_API_SECRET E))); [left; reflexivity|].
  right. destruct (provider (token_request E)) as [r|msg]; cbn -[raise_for_status].
  - destruct (rfs_cases r (tr ++ [token_request E])%list) as [[Ht Hr]|[Ht [m Hr]]];
      rewrite Hr; cbn -[raise_for_status]; case_all; reflexivity.
  - case_all; reflexivity.
Qed.

Lemma flight_get_run provider tok params tr :
  exists x, flight_get provider tok params tr = (x, (tr ++ [flight_request tok params])%list)
    /\ (forall r j, provider (flight_request tok params) = Resp r ->
         response_truthy r = true -> body r = inr j -> x = inr (JStr (py_str j))).
Proof.
  unfold flight_get, try_except, bind, send, lift, ret, raise, resp_json.
  destruct (provider (flight_request tok params)) as [r|msg] eqn:Hp; cbn -[raise_for_status].
  - destruct (rfs_cases r (tr ++ [flight_request tok params])%list) as [[Ht Hr]|[Ht [m Hr]]];
      rewrite Hr; cbn -[raise_for_status]; case_all;
      eexists; (split; [reflexivity|]); intros r0 j0 Hq Ht0 Hb0;
      injection Hq as <-; try congruence.
  - eexists; split; [reflexivity|]. intros; discriminate.
Qed.

(** Every request of a flight search is the token request or the flight
    GET with [flight_params] of its arguments; a GET answered with a
    non-raising JSON response decides the result. *)
Lemma flights_run provider E o d dep a ns rd ch inf tc mx :
  let params := flight_params o d dep a ns rd ch inf tc mx in
  let run := search_amadeus_flights provider E o d dep a ns rd ch inf tc mx [] in
  forall q, In q (snd run) ->
    q = token_request E \/
    (exists tok, q = flight_request tok params /\
       forall r j, provider q = Resp r -> response_truthy r = true -> body r = inr j ->
         fst run = inr (JStr (py_str j))).
Proof.
  intros params run q Hin; subst run.
  unfold search_amadeus_flights, bind in *.
  destruct (get_token_trace provider E []) as [Hg | Hg];
    [rewrite Hg in Hin; cbn in Hin; contradiction|].
  destruct (_get_amadeus_token provider E []) as [[e | tok] tr1]; cbn in Hg; subst tr1;
    cbn -[flight_get py_in] in *; try contradiction;
    try (destruct Hin as [Hin | []]; left; congruence).
  all: destruct (py_in "Error" tok) as [e | [|]]; cbn -[flight_get] in *;
    try contradiction; try (destruct Hin as [Hin | []]; left; congruence).
  all: destruct (flight_get_run provider tok params [token_request E]) as [x [Hf Hx]];
      fold params in Hin; rewrite Hf in *; cbn in *;
      destruct Hin as [Hin | [Hin | []]]; [left; congruence|].
      right. exists tok. split; [congruence|]. subst q.
      change (flight_params o d dep a ns rd ch inf tc mx) with params. rewrite Hf. exact Hx.
Qed.

Lemma str_truthy_false t : str_truthy t = false -> t = EmptyString.
Proof.
  unfold str_truthy. destruct (String.eqb t EmptyString) eqn:H; [|discriminate].
  intros _. apply String.eqb_eq; exact H.
Qed.

Lemma str_of_code_points_id s : str_of_code_points (code_points s) = s.
Proof.
  unfold str_of_code_points, code_points. rewrite map_map.
  erewrite map_ext; [rewrite map_id; apply string_of_list_ascii_of_string|].
  intros c. unfold code_point, nat_of_ascii. rewrite N_nat_Z, N2Z.id.
  apply ascii_N_embedding.
Qed.

Lemma py_str_in_sound u l : py_str_in u l = true -> In (str_of_code_points u) l.
Proof.
  unfold py_str_in. intros H. apply existsb_exists in H. destruct H as [s [Hs He]].
  unfold code_points_eqb in He. destruct (list_eq_dec Z.eq_dec u (code_points s)) as [->|];
    [|discriminate].
  rewrite str_of_code_points_id. exact Hs.
Qed.

Lemma flight_params_lookups o d dep a ns rd ch inf tc mx :
  let p := flight_params o d dep a ns rd ch inf tc mx in
  dict_lookup "children" p = (if ch >? 0 then Some (PInt ch) else None)
  /\ dict_lookup "infants" p = (if inf >? 0 then Some (PInt inf) else None)
  /\ dict_lookup "travelClass" p =
     match tc with
     | Some t =>
         if py_str_in (py_upper t) ["ECONOMY"; "PREMIUM_ECONOMY"; "BUSINESS"; "FIRST"]
         then Some (PStr (str_of_code_points (py_upper t))) else None
     | None => None
     end.
Proof.
  intros p; subst p; unfold flight_params.
  destruct tc as [t|];
    [destruct (str_truthy t) eqn:Ht;
       [destruct (py_str_in (py_upper t)
                    ["ECONOMY"; "PREMIUM_ECONOMY"; "BUSINESS"; "FIRST"]) eqn:Hx|
        apply str_truthy_false in Ht; subst t; cbn [py_upper]]|];
    rewrite ?dict_lookup_set;
    destruct (opt_str_truthy rd), (ch >? 0), (inf >? 0);
    rewrite ?dict_lookup_set; cbn; rewrite ?Hx; auto.
Qed.

Lemma offer_params_lookups joined cin cout adults room currency price_range view :
  let p := offer_params joined cin cout adults room currency price_range view in
  dict_lookup "currency" p = (if str_truthy currency then Some (PStr currency) else None)
  /\ dict_lookup "priceRange" p = Some (PStr price_range)
  /\ dict_lookup "view" p = Some (PStr (if str_truthy view then view else "FULL")).
Proof.
  intros p; subst p; unfold offer_params.
  destruct (str_truthy currency), (str_truthy price_range), (str_truthy view);
    rewrite ?dict_lookup_set; cbn; auto.
Qed.

(** The token request opens every hotel search. *)
Lemma hotel_run_head provider E city_code check_in_date check_out_date
    adults use_test_env radius_km max_hotels currency price_range room_quantity view :
  nth_error (snd (search_amadeus_hotels provider E city_code check_in_date check_out_date
     adults use_test_env radius_km max_hotels currency price_range room_quantity view []))
    0 = Some (auth_request E use_test_env).
Proof.
  unfold search_amadeus_hotels, bind.
  destruct (hotel_auth_run provider E use_test_env []) as [xa [Ha _]].
  rewrite Ha. destruct xa as [e | [r | tok]]; cbn -[hotel_list]; auto.
  destruct (hotel_list_run provider use_test_env tok city_code radius_km max_hotels
              [auth_request E use_test_env]) as [xl [Hl _]].
  rewrite Hl. destruct xl as [e | [r | [| id ids]]]; cbn -[py_join hotel_offers]; auto.
  destruct (py_join "," (id :: ids)) as [e | joined]; cbn -[hotel_offers]; auto.
  match goal with
  | |- context [hotel_offers provider use_test_env tok ?ps ?t0] =>
      destruct (hotel_offers_run provider use_test_env tok ps t0) as [xo [Ho _]];
      rewrite Ho
  end.
  destruct xo; reflexivity.
Qed.

Lemma collect_hotel_ids_sublist items ids :
  collect_hotel_ids items = inr ids -> sublist ids (map hotel_id_field items).
Proof.
  revert ids; induction items as [|h items IH]; intros ids H; cbn in H.
  - injection H as <-. constructor.
  - destruct h; cbn in H; try discriminate.
    destruct (collect_hotel_ids items) as [e|rest] eqn:Hc; cbn in H; [discriminate|].
    injection H as <-. cbn.
    destruct (json_truthy _); [apply sublist_keep | apply sublist_skip]; apply IH; reflexivity.
Qed.

Lemma collect_hotel_ids_ok items ids :
  collect_hotel_ids items = inr ids -> ids = filter json_truthy (map hotel_id_field items).
Proof.
  revert ids; induction items as [|h items IH]; intros ids H; cbn in H.
  - injection H as <-. reflexivity.
  - destruct h; cbn in H; try discriminate.
    destruct (collect_hotel_ids items) as [e|rest] eqn:Hc; cbn in H; [discriminate|].
    injection H as <-. cbn. rewrite <- (IH rest eq_refl).
    destruct (json_truthy _); reflexivity.
Qed.

Lemma sublist_nil_l {A} (m : list A) : sublist [] m.
Proof. induction m; constructor; assumption. Qed.

Lemma sublist_firstn {A} (l m : list A) k :
  sublist l m -> sublist (firstn k l) m.
Proof.
  intros H; revert k; induction H as [|x l1 l2 H IH|x l1 l2 H IH]; intros k.
  - destruct k; constructor.
  - apply sublist_skip, IH.
  - destruct k; cbn.
    + apply sublist_nil_l.
    + apply sublist_keep, IH.
Qed.

Lemma py_slice_to_length {A} (l : list A) n :
  0 <= n -> Z.of_nat (length (py_slice_to l n)) <= n.
Proof.
  intros Hn. unfold py_slice_to. apply Z.leb_le in Hn. rewrite Hn.
  apply Z.leb_le in Hn. rewrite length_firstn. lia.
Qed.


Lemma collect_hotel_ids_raises items e :
  collect_hotel_ids items = inl e -> exists m, e = AttributeError m.
Proof.
  induction items as [|h items IH]; cbn; [discriminate|].
  destruct h; cbn; try (intros H; injection H as <-; eauto).
  destruct (collect_hotel_ids items); cbn; [auto | discriminate].
Qed.

(** Extracting the hotel ids raises no [RequestException]. *)
Lemma extract_hotel_ids_raises j n e :
  extract_hotel_ids j n = inl e -> is_request_exception e = false.
Proof.
  unfold extract_hotel_ids, sbind.
  destruct j; cbn; try (intros H; injection H as <-; reflexivity).
  destruct (match assoc "data" kvs with Some v => v | None => JArr [] end) as
    [| b | z | s0 | l | kvs'] eqn:Hd; cbn;
    try (intros H; injection H as <-; reflexivity);
    match goal with
    | |- context [collect_hotel_ids ?it] =>
        destruct (collect_hotel_ids it) as [e0|ids] eqn:Hc; cbn;
        [intros H; injection H as <-; destruct (collect_hotel_ids_raises _ _ Hc) as [m ->];
         reflexivity | discriminate]
    end.
Qed.

End Facts.

(* ------------------------------------------------------------------ *)
(** ** Each stage evaluated *)

Module Eval.
Import Py Net Amadeus Fixtures Facts Samples.

Lemma rfs_eval r tr :
  raise_for_status r tr =
  if response_truthy r then (inr tt, tr) else (inl (HTTPError (http_error_message r) r), tr).
Proof.
  unfold raise_for_status, response_truthy, http_error_message, raise, ret.
  destruct (400 <=? status r) eqn:A, (status r <? 500) eqn:B,
           (500 <=? status r) eqn:C, (status r <? 600) eqn:D; cbn; try reflexivity;
    rewrite ?Z.leb_le, ?Z.leb_gt, ?Z.ltb_lt, ?Z.ltb_ge in *; lia.
Qed.

Lemma py_get_raises j k d e : py_get j k d = inl e -> is_request_exception e = false.
Proof. destruct j; cbn; try discriminate; intros H; injection H as <-; reflexivity. Qed.

Lemma hotel_auth_eval provider E use tr :
  hotel_auth provider E use tr =
  (match provider (auth_request E use) with
   | Fail m => inr (inl (HErr "Amadeus authentication failed" (Some m) StepAuth))
   | Resp r =>
       if response_truthy r then
         match body r with
         | inl m => inr (inl (HErr "Amadeus authentication failed" (Some m) StepAuth))
         | inr j =>
             match py_get j "access_token" JNull with
             | inl e => inl e
             | inr v =>
                 if json_truthy v then inr (inr v)
                 else inr (inl (HErr "No access_token in token response" (Some (text r)) StepAuth))
             end
         end
       else inr (inl (HErr "Amadeus authentication failed" (Some (http_error_message r)) StepAuth))
   end, (tr ++ [auth_request E use])%list).
Proof.
  unfold hotel_auth, try_except, bind, send, lift, ret, raise, resp_json.
  destruct (provider (auth_request E use)) as [r|m]; [|reflexivity].
  rewrite rfs_eval. destruct (response_truthy r) eqn:Ht.
  - destruct (body r) as [m|j]; [reflexivity|].
    unfold ret; cbn -[py_get].
    destruct (py_get j "access_token" JNull) as [e|v] eqn:Hg; cbn.
    + rewrite (py_get_raises _ _ _ _ Hg). reflexivity.
    + destruct (json_truthy v); reflexivity.
  - cbn. rewrite Ht. reflexivity.
Qed.

Lemma hotel_list_eval provider use tok city radius maxh tr :
  hotel_list provider use tok city radius maxh tr =
  (match provider (list_request use tok city radius) with
   | Fail m => inr (inl (HErr "Hotel List API error" (Some m) Step1))
   | Resp r =>
       if response_truthy r then
         match body r with
         | inl m => inr (inl (HErr "Hotel List API error" (Some m) Step1))
         | inr j =>
             match extract_hotel_ids j maxh with
             | inl e =>
                 if is_parse_exception e
                 then inr (inl (HErr ("Could not parse hotel IDs: " ++ exc_str e) None Step1))
                 else inl e
             | inr ids => inr (inr ids)
             end
         end
       else inr (inl (HErr "Hotel List API error" (Some (http_error_message r)) Step1))
   end, (tr ++ [list_request use tok city radius])%list).
Proof.
  unfold hotel_list, try_except, bind, send, lift, ret, raise, resp_json.
  destruct (provider (list_request use tok city radius)) as [r|m]; [|reflexivity].
  rewrite rfs_eval. destruct (response_truthy r) eqn:Ht.
  - destruct (body r) as [m|j]; [reflexivity|].
    unfold ret; cbn -[extract_hotel_ids].
    destruct (extract_hotel_ids j maxh) as [e|ids] eqn:He; cbn; [|reflexivity].
    rewrite (extract_hotel_ids_raises _ _ _ He). destruct (is_parse_exception e); reflexivity.
  - cbn. rewrite Ht. reflexivity.
Qed.

Lemma hotel_offers_eval provider use tok params tr :
  hotel_offers provider use tok params tr =
  (match provider (offers_request use tok params) with
   | Fail m => inr (HErr "Hotel Offers API error" (Some m) Step2)
   | Resp r =>
       if response_truthy r then
         match body r with
         | inl m => inr (HErr "Hotel Offers API error" (Some m) Step2)
         | inr j => inr (HOk j)
         end
       else inr (HErr "Hotel Offers API error" (Some (http_error_message r)) Step2)
   end, (tr ++ [offers_request use tok params])%list).
Proof.
  unfold hotel_offers, try_except, bind, send, lift, ret, raise, resp_json.
  destruct (provider (offers_request use tok params)) as [r|m]; [|reflexivity].
  rewrite rfs_eval. destruct (response_truthy r) eqn:Ht.
  - destruct (body r) as [m|j]; reflexivity.
  - cbn. rewrite Ht. reflexivity.
Qed.

Lemma get_token_eval provider E tr :
  opt_str_truthy (AMADEUS_API_KEY E) = true ->
  opt_str_truthy (AMADEUS_API_SECRET E) = true ->
  _get_amadeus_token provider E tr =
  (match provider (token_request E) with
   | Fail m => inr (JStr ("Error fetching Amadeus token: " ++ m))
   | Resp r =>
       if response_truthy r then
         match body r with
         | inl m => inr (JStr ("Error fetching Amadeus token: " ++ m))
         | inr j => py_get j "access_token" JNull
         end
       else inr (JStr ("Error fetching Amadeus token: " ++ http_error_message r))
   end, (tr ++ [token_request E])%list).
Proof.
  intros Hk Hs.
  unfold _get_amadeus_token, try_except, bind, send, lift, ret, raise, resp_json.
  rewrite Hk, Hs. cbn -[raise_for_status py_get].
  destruct (provider (token_request E)) as [r|m]; [|reflexivity].
  rewrite rfs_eval. destruct (response_truthy r) eqn:Ht.
  - destruct (body r) as [m|j]; [reflexivity|].
    unfold ret; cbn -[py_get].
    destruct (py_get j "access_token" JNull) as [e|v] eqn:Hg; cbn; [|reflexivity].
    rewrite (py_get_raises _ _ _ _ Hg). reflexivity.
  - reflexivity.
Qed.

Lemma flight_get_eval provider tok params tr :
  flight_get provider tok params tr =
  (match provider (flight_request tok params) with
   | Fail m => inr (JStr ("Error fetching flight offers: " ++ m))
   | Resp r =>
       if response_truthy r then
         match body r with
         | inl m => inr (JStr ("Error fetching flight offers: " ++ m))
         | inr j => inr (JStr (py_str j))
         end
       else inr (JStr ("Error from Amadeus API: " ++ text r))
   end, (tr ++ [flight_request tok params])%list).
Proof.
  unfold flight_get, try_except, bind, send, lift, ret, raise, resp_json.
  destruct (provider (flight_request tok params)) as [r|m]; [|reflexivity].
  rewrite rfs_eval. destruct (response_truthy r); [|reflexivity].
  destruct (body r); reflexivity.
Qed.

Lemma auth_ok provider E use tok :
  fst (hotel_auth provider E use []) = inr (inr tok) ->
  hotel_auth provider E use [] = (inr (inr tok), [auth_request E use]).
Proof.
  destruct (hotel_auth_run provider E use []) as [x [Hx _]]. rewrite Hx. cbn.
  intros ->. reflexivity.
Qed.

Lemma list_ok provider use tok city radius maxh tr ids :
  fst (hotel_list provider use tok city radius maxh tr) = inr (inr ids) ->
  hotel_list provider use tok city radius maxh tr
  = (inr (inr ids), (tr ++ [list_request use tok city radius])%list).
Proof.
  destruct (hotel_list_run provider use tok city radius maxh tr) as [x [Hx _]]. rewrite Hx. cbn.
  intros ->. reflexivity.
Qed.

Lemma auth_ok_truthy provider E use tok :
  fst (hotel_auth provider E use []) = inr (inr tok) -> json_truthy tok = true.
Proof.
  rewrite hotel_auth_eval. cbn.
  destruct (provider (auth_request E use)) as [r|m]; [|discriminate].
  destruct (response_truthy r); [|discriminate].
  destruct (body r) as [m|j]; [discriminate|].
  destruct (py_get j "access_token" JNull) as [e|v]; [discriminate|].
  destruct (json_truthy v) eqn:Hv; [|discriminate]. intros H; injection H as <-. exact Hv.
Qed.

Lemma py_join_strs i sep ss :
  ss <> [] -> py_join_from i sep (map JStr ss) = inr (String.concat sep ss).
Proof.
  revert i; induction ss as [|s ss IH]; intros i H; [congruence|].
  destruct ss as [|s' ss']; [reflexivity|].
  change (py_join_from i sep (map JStr (s :: s' :: ss')))
    with (match py_join_from (i + 1) sep (map JStr (s' :: ss')) with
          | inr r => inr (s ++ sep ++ r)
          | inl e => inl e
          end).
  rewrite (IH (i + 1)) by discriminate. reflexivity.
Qed.

Lemma py_join_non_str i sep l :
  Exists (fun x => type_name x <> "str") l -> exists m, py_join_from i sep l = inl (TypeError m).
Proof.
  intros H; revert i; induction H as [x l Hx | x l H IH]; intros i.
  - destruct x; cbn; try (eexists; reflexivity). exfalso; apply Hx; reflexivity.
  - destruct x; cbn; try (eexists; reflexivity).
    destruct l as [|y l']; [inversion H|].
    destruct (IH (i + 1)) as [m Hm]. rewrite Hm. eauto.
Qed.

Lemma collect_non_dict items :
  Exists (fun h => type_name h <> "dict") items ->
  exists m, collect_hotel_ids items = inl (AttributeError m).
Proof.
  induction 1 as [h l Hh | h l H IH].
  - destruct h; cbn; try (eexists; reflexivity). exfalso; apply Hh; reflexivity.
  - destruct h; cbn; try (eexists; reflexivity).
    destruct IH as [m Hm]. rewrite Hm. exists m. reflexivity.
Qed.

Lemma collect_dicts items :
  Forall (fun h => type_name h = "dict") items ->
  collect_hotel_ids items = inr (filter json_truthy (map hotel_id_field items)).
Proof.
  induction 1 as [|h l Hh H IH]; [reflexivity|].
  destruct h; try discriminate Hh. cbn. rewrite IH. cbn. reflexivity.
Qed.

Lemma py_slice_to_nil {A} n : @py_slice_to A [] n = [].
Proof. unfold py_slice_to. destruct (0 <=? n); apply firstn_nil. Qed.

Lemma extract_zero j ids : extract_hotel_ids j 0 = inr ids -> ids = [].
Proof.
  unfold extract_hotel_ids, sbind.
  destruct (py_get j "data" (JArr [])); [discriminate|].
  destruct (py_iter j0); [discriminate|].
  destruct (collect_hotel_ids l); [discriminate|].
  intros H; injection H as <-. reflexivity.
Qed.

Lemma error_in_token_error m : str_contains "Error" ("Error fetching Amadeus token: " ++ m) = true.
Proof. reflexivity. Qed.

Lemma flights_trace_shape provider E o d dep a ns rd ch inf tc mx :
  let run := search_amadeus_flights provider E o d dep a ns rd ch inf tc mx [] in
  (run = (inr (JStr config_error), []))
  \/ snd run = [token_request E]
  \/ (exists t, fst (_get_amadeus_token provider E []) = inr t /\ py_in "Error" t = inr false
        /\ snd run = [token_request E;
                      flight_request t (flight_params o d dep a ns rd ch inf tc mx)]).
Proof.
  intros run; subst run. unfold search_amadeus_flights, bind.
  destruct (get_token_trace provider E []) as [Hg | Hg].
  - left. rewrite Hg. reflexivity.
  - destruct (_get_amadeus_token provider E []) as [[e | tok] tr1] eqn:Ht; cbn in Hg; subst tr1.
    + right; left; reflexivity.
    + unfold lift. destruct (py_in "Error" tok) as [e | [|]] eqn:Hi.
      * right; left; reflexivity.
      * right; left; reflexivity.
      * right; right. exists tok. split; [reflexivity|]. split; [exact Hi|].
        destruct (flight_get_run provider tok (flight_params o d dep a ns rd ch inf tc mx)
                    [token_request E]) as [x [Hx _]].
        rewrite Hx. reflexivity.
Qed.

Lemma hotel_trace_shape provider E city cin cout ad use radius maxh cur pr room view :
  let run := search_amadeus_hotels provider E city cin cout ad use radius maxh cur pr room view [] in
  snd run = [auth_request E use]
  \/ exists tok, fst (hotel_auth provider E use []) = inr (inr tok) /\
       (snd run = [auth_request E use; list_request use tok city radius]
        \/ exists ps, snd run = [auth_request E use; list_request use tok city radius;
                                 offers_request use tok ps]).
Proof.
  intros run; subst run. unfold search_amadeus_hotels, bind.
  destruct (hotel_auth_run provider E use []) as [xa [Ha _]]. rewrite Ha.
  destruct xa as [e | [r | tok]]; cbn -[hotel_list]; [left; reflexivity | left; reflexivity|].
  right. exists tok. split; [reflexivity|].
  destruct (hotel_list_run provider use tok city radius maxh [auth_request E use]) as [xl [Hl _]].
  rewrite Hl. destruct xl as [e | [r | [| id ids]]]; cbn -[py_join hotel_offers];
    try (left; reflexivity).
  destruct (py_join "," (id :: ids)) as [e | joined]; cbn -[hotel_offers]; [left; reflexivity|].
  right.
  match goal with
  | |- context [hotel_offers provider use tok ?ps ?t0] =>
      destruct (hotel_offers_run provider use tok ps t0) as [xo [Ho _]];
      rewrite Ho; exists ps
  end.
  destruct xo; reflexivity.
Qed.

End Eval.

Module AgentEval.
Import Py Agent.

Lemma shown_text_spec ev t :
  shown_text ev = Some t ->
  (exists c p ps, ev_content ev = Some c /\ parts c = Some (p :: ps) /\ part_text p = Some t)
  /\ t <> "None" /\ t <> EmptyString.
Proof.
  unfold shown_text.
  destruct (ev_content ev) as [c|]; [|discriminate].
  destruct (parts c) as [[|p ps]|] eqn:Hps; try discriminate.
  destruct (part_text p) as [t0|] eqn:Hpt; [|discriminate].
  destruct (negb (String.eqb t0 "None")) eqn:H1; [|discriminate].
  destruct (str_truthy t0) eqn:H2; [|discriminate].
  cbn. intros Ht; injection Ht as <-. split; [eauto 7|].
  unfold str_truthy in H2. apply negb_true_iff, String.eqb_neq in H1, H2. auto.
Qed.

Lemma print_events_run evs tr :
  exists out, print_events evs tr = (inr tt, (tr ++ out)%list)
    /\ sent_messages out = []
    /\ forall line, In (Printed line) out ->
         exists ev t, In ev evs /\ shown_text ev = Some t /\ line = author ev ++ " > " ++ " " ++ t.
Proof.
  revert tr; induction evs as [|ev evs IH]; intros tr.
  - exists []. rewrite app_nil_r. split; [reflexivity|]. split; [reflexivity|]. intros l [].
  - cbn [print_events]. unfold rbind.
    destruct (shown_text ev) as [t|] eqn:Hs.
    + unfold rprint.
      destruct (IH (tr ++ [Printed (author ev ++ " > " ++ " " ++ t)])%list) as [out [Ho [Hm Hl]]].
      rewrite Ho. exists (Printed (author ev ++ " > " ++ " " ++ t) :: out).
      rewrite <- app_assoc. split; [reflexivity|]. split; [exact Hm|].
      intros line [Hx | Hx].
      * injection Hx as <-. exists ev, t. split; [left; reflexivity | auto].
      * destruct (Hl line Hx) as [ev' [t' [H1 H2]]]. exists ev', t'.
        split; [right; exact H1 | exact H2].
    + unfold rret. destruct (IH tr) as [out [Ho [Hm Hl]]]. rewrite Ho. exists out.
      split; [reflexivity|]. split; [exact Hm|].
      intros line Hx. destruct (Hl line Hx) as [ev' [t' [H1 H2]]]. exists ev', t'.
      split; [right; exact H1 | exact H2].
Qed.

Lemma sent_messages_app a b : sent_messages (a ++ b) = (sent_messages a ++ sent_messages b)%list.
Proof. unfold sent_messages. apply flat_map_app. Qed.

Lemma print_stream_run st tr :
  exists out,
    print_stream st tr
    = (match snd st with Some e => inl e | None => inr tt end, (tr ++ out)%list)
    /\ sent_messages out = []
    /\ forall line, In (Printed line) out ->
         exists ev t, In ev (fst st) /\ shown_text ev = Some t
           /\ line = author ev ++ " > " ++ " " ++ t.
Proof.
  unfold print_stream, rbind.
  destruct (print_events_run (fst st) tr) as [out [Ho [Hm Hl]]]. rewrite Ho.
  exists out. split; [|split; [exact Hm | exact Hl]].
  destruct (snd st); reflexivity.
Qed.

Lemma process_run ra sess qs tr :
  exists res out, process_queries ra sess qs tr = (res, (tr ++ out)%list)
    /\ (forall line, In (Printed line) out ->
          (exists q, In q qs /\ line = nl ++ "User > " ++ q) \/ event_line ra line)
    /\ (forall s, sess = Some s ->
          (res = inr tt /\ sent_messages out = map (fun q => (session_id s, q)) qs)
          \/ (exists e k h rest, res = inl e /\ (k < length qs)%nat
                /\ snd (ra (session_id s) h (nth k qs EmptyString)) = Some e
                /\ (tr ++ out)%list
                   = (h ++ Sent (session_id s) (nth k qs EmptyString) :: rest)%list
                /\ sent_messages out = map (fun q => (session_id s, q)) (firstn (S k) qs)))
    /\ (sess = None -> sent_messages out = []).
Proof.
  revert tr; induction qs as [|q qs IH]; intros tr.
  - exists (inr tt), []. rewrite app_nil_r. split; [reflexivity|].
    split; [intros l []|]. split; [|reflexivity]. intros s _. left. split; reflexivity.
  - cbn [process_queries]. unfold rbind at 1 2 3, rprint, send_message.
    destruct sess as [s|].
    + set (tr1 := (tr ++ [Printed (nl ++ "User > " ++ q)])%list).
      set (tr2 := (tr1 ++ [Sent (session_id s) q])%list).
      destruct (print_stream_run (ra (session_id s) tr1 q) tr2) as [pe [Hp [Hpm Hpl]]].
      unfold rbind. rewrite Hp.
      assert (Hpl' : forall line, In (Printed line) pe -> event_line ra line).
      { intros line Hin. destruct (Hpl line Hin) as [ev [t [H1 [H2 H3]]]].
        destruct (shown_text_spec ev t H2) as [Hc [Hn He]].
        exists ev, t, (session_id s), tr1, q. auto. }
      destruct (snd (ra (session_id s) tr1 q)) as [e|] eqn:He.
      * exists (inl e), ([Printed (nl ++ "User > " ++ q); Sent (session_id s) q] ++ pe)%list.
        split; [subst tr1 tr2; rewrite <- !app_assoc; reflexivity|].
        split; [|split].
        -- intros line Hin. cbn in Hin. destruct Hin as [Hx | [Hx | Hin]].
           ++ injection Hx as <-. left. exists q. split; [left; reflexivity | reflexivity].
           ++ discriminate Hx.
           ++ right. exact (Hpl' line Hin).
        -- intros s' Hs'. injection Hs' as <-. right.
           exists e, O, tr1, pe. split; [reflexivity|]. split; [cbn; lia|].
           split; [exact He|]. split.
           ++ subst tr1. cbn [nth]. rewrite <- !app_assoc. reflexivity.
           ++ rewrite sent_messages_app, Hpm. reflexivity.
        -- discriminate.
      * destruct (IH (tr2 ++ pe)%list) as [res [out [Ho [Hl [Hs _]]]]]. rewrite Ho.
        exists res, ([Printed (nl ++ "User > " ++ q); Sent (session_id s) q] ++ pe ++ out)%list.
        assert (Htr : ((tr2 ++ pe) ++ out)%list
                      = (tr ++ [Printed (nl ++ "User > " ++ q); Sent (session_id s) q]
                            ++ pe ++ out)%list)
          by (subst tr1 tr2; rewrite <- !app_assoc; reflexivity).
        split; [rewrite Htr; reflexivity|].
        split; [|split].
        -- intros line Hin. cbn in Hin. destruct Hin as [Hx | [Hx | Hin]].
           ++ injection Hx as <-. left. exists q. split; [left; reflexivity | reflexivity].
           ++ discriminate Hx.
           ++ apply in_app_or in Hin. destruct Hin as [Hin | Hin].
              ** right. exact (Hpl' line Hin).
              ** destruct (Hl line Hin) as [[q' [H1 H2]] | H].
                 --- left. exists q'. split; [right; exact H1 | exact H2].
                 --- right; exact H.
        -- intros s' Hs'. injection Hs' as <-.
           destruct (Hs s eq_refl) as [[Hr Hm] | [e [k [h [rest [Hr [Hk [He' [Ht Hm]]]]]]]]].
           ++ left. split; [exact Hr|].
              rewrite sent_messages_app, sent_messages_app, Hpm, Hm. reflexivity.
           ++ right. exists e, (S k), h, rest. split; [exact Hr|].
              split; [cbn; lia|]. split; [exact He'|]. split.
              ** rewrite <- Htr. exact Ht.
              ** rewrite sent_messages_app, sent_messages_app, Hpm, Hm. reflexivity.
        -- discriminate.
    + exists (inl (AttributeError "'NoneType' object has no attribute 'id'")),
             [Printed (nl ++ "User > " ++ q)].
      split; [reflexivity|]. split; [|split; [intros s Hs; discriminate | reflexivity]].
      intros line [Hx | []]. injection Hx as <-. left. exists q. split; [left|]; reflexivity.
Qed.

Lemma truthy_as_list uq : queries_truthy uq = true -> exists q rest, as_list uq = q :: rest.
Proof.
  destruct uq as [|s|[|q rest]]; cbn; try discriminate; eauto.
Qed.


End AgentEval.

(* ------------------------------------------------------------------ *)
(** ** The claims *)

Module Claims.
Import Py Net Amadeus Fixtures Facts.

(** C1 (flights part holds, hotels part fails): with the key or the secret
    unset, [search_amadeus_flights] returns the configuration error without
    any request; [search_amadeus_hotels] has no such check and still sends
    the token POST first. *)
Theorem missing_credentials_runs provider E o d dep a ns rd ch inf tc mx
    city cin cout ad use radius maxh cur pr room view :
  opt_str_truthy (AMADEUS_API_KEY E) = false \/ opt_str_truthy (AMADEUS_API_SECRET E) = false ->
  search_amadeus_flights provider E o d dep a ns rd ch inf tc mx [] = (inr (JStr config_error), [])
  /\ nth_error (snd (search_amadeus_hotels provider E city cin cout ad use radius maxh
                       cur pr room view [])) 0 = Some (auth_request E use).
Proof.
  intros Hc. split; [|apply hotel_run_head].
  unfold search_amadeus_flights, _get_amadeus_token, bind, lift, ret.
  assert (Hn : negb (opt_str_truthy (AMADEUS_API_KEY E))
               || negb (opt_str_truthy (AMADEUS_API_SECRET E)) = true)
    by (destruct Hc as [H|H]; rewrite H; [reflexivity | apply orb_true_r]).
  rewrite Hn. reflexivity.
Qed.

Lemma missing_credentials_runs_witness :
  (opt_str_truthy (AMADEUS_API_KEY no_creds) = false
   \/ opt_str_truthy (AMADEUS_API_SECRET no_creds) = false)
  /\ (search_amadeus_flights happy no_creds "LHR" "TYO" "2025-01-01" 1 false None 0 0 None 3 []
        = (inr (JStr config_error), [])
      /\ nth_error (snd (search_amadeus_hotels happy no_creds "PAR" "2025-01-01" "2025-01-02"
                           1 true 1000 5 "EUR" "1-10000" 1 EmptyString [])) 0
         = Some (auth_request no_creds true)).
Proof.
  split; [left; reflexivity|].
  apply (missing_credentials_runs happy no_creds "LHR" "TYO" "2025-01-01" 1 false None 0 0 None 3
           "PAR" "2025-01-01" "2025-01-02" 1 true 1000 5 "EUR" "1-10000" 1 EmptyString).
  left; reflexivity.
Defined.

(** C2 (hotel part holds, flight part fails): when the token endpoint
    answers 2xx with a JSON object lacking [access_token], the hotel search
    returns the step ["auth"] error; [_get_amadeus_token] returns [None]
    and [search_amadeus_flights] then raises [TypeError] from
    ["Error" in token] instead of returning an error result. *)
Theorem missing_token_results provider E o d dep a ns rd ch inf tc mx
    city cin cout ad use radius maxh cur pr room view :
  opt_str_truthy (AMADEUS_API_KEY E) = true ->
  opt_str_truthy (AMADEUS_API_SECRET E) = true ->
  lacks_token (provider (auth_request E use)) = true ->
  lacks_token (provider (token_request E)) = true ->
  (exists d, search_amadeus_hotels provider E city cin cout ad use radius maxh cur pr room view []
             = (inr (HErr "No access_token in token response" d StepAuth), [auth_request E use]))
  /\ _get_amadeus_token provider E [] = (inr JNull, [token_request E])
  /\ search_amadeus_flights provider E o d dep a ns rd ch inf tc mx []
     = (inl (TypeError "argument of type 'NoneType' is not iterable"), [token_request E]).
Proof.
  intros Hk Hs Hla Hlt.
  unfold lacks_token in Hla, Hlt.
  destruct (provider (token_request E)) as [r|] eqn:Hp; [|discriminate].
  destruct (response_truthy r) eqn:Ht; [|discriminate].
  destruct (body r) as [|j] eqn:Hb; [discriminate|].
  assert (Hj : py_get j "access_token" JNull = inr JNull)
    by (destruct j as [| | | | |kvs]; try discriminate; cbn in *;
        destruct (assoc "access_token" kvs); [discriminate | reflexivity]).
  assert (Hg : _get_amadeus_token provider E [] = (inr JNull, [token_request E])).
  { unfold _get_amadeus_token, try_except, bind, send, lift, ret, raise, resp_json.
    rewrite Hk, Hs. cbn -[raise_for_status py_get]. rewrite Hp.
    cbn -[raise_for_status py_get].
    destruct (rfs_cases r [token_request E]) as [[_ Hr]|[Hf _]]; [|congruence].
    rewrite Hr. cbn -[py_get]. rewrite Hb. cbn -[py_get]. rewrite Hj. reflexivity. }
  split; [|split; [exact Hg|]].
  - destruct (provider (auth_request E use)) as [r'|] eqn:Hp'; [|discriminate].
    destruct (response_truthy r') eqn:Ht'; [|discriminate].
    destruct (body r') as [|j'] eqn:Hb'; [discriminate|].
    assert (Hj' : py_get j' "access_token" JNull = inr JNull)
      by (destruct j' as [| | | | |kvs]; try discriminate; cbn in *;
          destruct (assoc "access_token" kvs); [discriminate | reflexivity]).
    assert (HA : hotel_auth provider E use [] =
                 (inr (inl (HErr "No access_token in token response" (Some (text r')) StepAuth)),
                  [auth_request E use])).
    { unfold hotel_auth, try_except, bind, send, lift, ret, raise, resp_json.
      rewrite Hp'. cbn -[raise_for_status py_get].
      destruct (rfs_cases r' [auth_request E use]) as [[_ Hr]|[Hf _]]; [|congruence].
      rewrite Hr. cbn -[py_get]. rewrite Hb'. cbn -[py_get]. rewrite Hj'. reflexivity. }
    exists (Some (text r')). unfold search_amadeus_hotels, bind. rewrite HA. reflexivity.
  - unfold search_amadeus_flights, bind. rewrite Hg. reflexivity.
Qed.

Lemma missing_token_results_witness :
  opt_str_truthy (AMADEUS_API_KEY creds) = true
  /\ opt_str_truthy (AMADEUS_API_SECRET creds) = true
  /\ lacks_token (no_token (auth_request creds true)) = true
  /\ lacks_token (no_token (token_request creds)) = true
  /\ search_amadeus_flights no_token creds "LHR" "TYO" "2025-01-01" 1 false None 0 0 None 3 []
     = (inl (TypeError "argument of type 'NoneType' is not iterable"), [token_request creds]).
Proof.
  split; [reflexivity|]. split; [reflexivity|].
  split; [vm_compute; reflexivity|]. split; [vm_compute; reflexivity|].
  refine (proj2 (proj2 (missing_token_results no_token creds "LHR" "TYO" "2025-01-01" 1 false
            None 0 0 None 3 "PAR" "2025-01-01" "2025-01-02" 1 true 1000 5 "EUR" "1-10000" 1
            EmptyString _ _ _ _))); vm_compute; reflexivity.
Defined.

(** C3 (fails for priceRange and view): [currency] is sent exactly when it
    is non-empty, but [priceRange] is always sent (empty when the argument
    is empty) and [view] is always sent, as ["FULL"] when the argument is
    empty; a run with both arguments empty sends [priceRange=] and
    [view=FULL] in the step-2 request. *)
Theorem offer_filters_sent :
  (forall joined cin cout ad room cur pr view,
     let p := offer_params joined cin cout ad room cur pr view in
     dict_lookup "currency" p = (if str_truthy cur then Some (PStr cur) else None)
     /\ dict_lookup "priceRange" p = Some (PStr pr)
     /\ dict_lookup "view" p = Some (PStr (if str_truthy view then view else "FULL")))
  /\ option_map (fun q => (dict_lookup "priceRange" (req_params q), dict_lookup "view" (req_params q)))
       (nth_error (snd (search_amadeus_hotels happy creds "PAR" "2025-01-01" "2025-01-02"
                          1 true 1000 5 "EUR" EmptyString 1 EmptyString [])) 2)
     = Some (Some (PStr EmptyString), Some (PStr "FULL")).
Proof.
  split; [intros; apply offer_params_lookups | vm_compute; reflexivity].
Qed.

(** C4: when authentication and the list request succeed but no hotel id
    is left, the search returns the step-1 "No hotels found" error and the
    offers request is never sent. *)
Theorem empty_hotel_list_stops provider E city cin cout ad use radius maxh cur pr room view tok :
  fst (hotel_auth provider E use []) = inr (inr tok) ->
  fst (hotel_list provider use tok city radius maxh [auth_request E use]) = inr (inr []) ->
  search_amadeus_hotels provider E city cin cout ad use radius maxh cur pr room view []
  = (inr (HErr ("No hotels found in " ++ city ++ ". Check city code or increase radius.")
               None Step1),
     [auth_request E use; list_request use tok city radius]).
Proof.
  intros H1 H2.
  destruct (hotel_auth_run provider E use []) as [xa [Ha _]].
  rewrite Ha in H1; cbn in H1; subst xa.
  destruct (hotel_list_run provider use tok city radius maxh [auth_request E use]) as [xl [Hl _]].
  rewrite Hl in H2; cbn in H2; subst xl.
  unfold search_amadeus_hotels, bind. rewrite Ha. cbn -[hotel_list]. rewrite Hl. reflexivity.
Qed.

Lemma empty_hotel_list_stops_witness :
  fst (hotel_auth empty_list creds true []) = inr (inr (JStr "abc"))
  /\ fst (hotel_list empty_list true (JStr "abc") "PAR" 1000 5 [auth_request creds true])
     = inr (inr [])
  /\ search_amadeus_hotels empty_list creds "PAR" "2025-01-01" "2025-01-02" 1 true 1000 5
       "EUR" "1-10000" 1 EmptyString []
     = (inr (HErr ("No hotels found in " ++ "PAR" ++ ". Check city code or increase radius.")
                  None Step1),
        [auth_request creds true; list_request true (JStr "abc") "PAR" 1000]).
Proof.
  split; [vm_compute; reflexivity|]. split; [vm_compute; reflexivity|].
  apply empty_hotel_list_stops; vm_compute; reflexivity.
Defined.

(** [search_amadeus_hotels] issues the auth, list and offers requests at
    most once each and in this order; an error tagged ["auth"] comes after
    the token request alone and one tagged [1] after the first two requests;
    and a transport failure, an HTTP error status or a non-JSON body at a
    stage returns an error tagged with that stage. *)
Theorem hotel_stages_in_order provider E city_code check_in_date check_out_date
    adults use_test_env radius_km max_hotels currency price_range room_quantity view :
  let run := search_amadeus_hotels provider E city_code check_in_date check_out_date
               adults use_test_env radius_km max_hotels currency price_range
               room_quantity view [] in
  (exists n, (n <= 3)%nat /\
     map (fun q => (req_method q, req_url q)) (snd run) = firstn n (stage_urls use_test_env))
  /\ (forall m d, fst run = inr (HErr m d StepAuth) -> length (snd run) = 1%nat)
  /\ (forall m d, fst run = inr (HErr m d Step1) -> length (snd run) = 2%nat)
  /\ (forall q, nth_error (snd run) 0 = Some q -> failed (provider q) = true ->
        exists m d, fst run = inr (HErr m d StepAuth))
  /\ (forall q, nth_error (snd run) 1 = Some q -> failed (provider q) = true ->
        exists m d, fst run = inr (HErr m d Step1))
  /\ (forall q, nth_error (snd run) 2 = Some q -> failed (provider q) = true ->
        exists m d, fst run = inr (HErr m d Step2)).
Proof.
  intros run; subst run.
  destruct (search_amadeus_hotels provider E city_code check_in_date check_out_date
              adults use_test_env radius_km max_hotels currency price_range
              room_quantity view []) as [res tr] eqn:Hrun; cbn [fst snd].
  unfold search_amadeus_hotels, bind in Hrun.
  destruct (hotel_auth_run provider E use_test_env []) as [xa [Ha [Ha1 Ha2]]].
  rewrite Ha in Hrun.
  destruct xa as [e | [r | tok]]; cbn -[py_join hotel_offers hotel_list offer_params] in Hrun.
  - injection Hrun as <- <-. close_run 1%nat.
  - destruct (Ha1 r eq_refl) as [m0 [d0 ->]].
    injection Hrun as <- <-. close_run 1%nat.
  - destruct (hotel_list_run provider use_test_env tok city_code radius_km max_hotels
                [auth_request E use_test_env]) as [xl [Hl [Hl1 Hl2]]].
    rewrite Hl in Hrun.
    destruct xl as [e | [r | [| id ids]]]; cbn -[py_join hotel_offers hotel_list offer_params] in Hrun.
    + injection Hrun as <- <-. close_run 2%nat.
    + destruct (Hl1 r eq_refl) as [m0 [d0 ->]].
      injection Hrun as <- <-. close_run 2%nat.
    + injection Hrun as <- <-. close_run 2%nat.
    + destruct (py_join "," (id :: ids)) as [e | joined]; cbn -[py_join hotel_offers hotel_list offer_params] in Hrun.
      * injection Hrun as <- <-. close_run 2%nat.
      * match type of Hrun with
        | hotel_offers provider use_test_env tok ?ps ?t0 = _ =>
            destruct (hotel_offers_run provider use_test_env tok ps t0) as [xo [Ho [Ho1 Ho2]]];
            rewrite Ho in Hrun
        end.
        destruct xo as [e | r]; cbn -[py_join hotel_offers hotel_list offer_params] in Hrun.
        -- injection Hrun as <- <-. close_run 3%nat.
        -- destruct (Ho1 r eq_refl) as [[j0 ->] | [m0 [d0 ->]]];
             injection Hrun as <- <-; close_run 3%nat.
Qed.

(** C5 (fails): a 2xx JSON body of an unexpected shape makes
    [search_amadeus_hotels] raise [AttributeError] instead of returning an
    error tagged with its stage, against the docstring's "on error includes
    error and step": at the auth stage, a token response that is a JSON
    array ([.get] on a list, only RequestException is handled); at stage 1,
    a data item that is not an object ([h.get] on an int, which the handler
    of ValueError, KeyError and TypeError does not catch). *)
Theorem hotel_shape_errors_escape :
  search_amadeus_hotels array_token creds "PAR" "2025-01-01" "2025-01-02" 1 true 1000 5
    "EUR" "1-10000" 1 EmptyString []
  = (inl (AttributeError "'list' object has no attribute 'get'"), [auth_request creds true])
  /\ search_amadeus_hotels (Samples.list_is (JObj [("data", JArr [JNum 5])])) creds "PAR"
       "2025-01-01" "2025-01-02" 1 true 1000 5 "EUR" "1-10000" 1 EmptyString []
     = (inl (AttributeError "'int' object has no attribute 'get'"),
        [auth_request creds true; list_request true (JStr "abc") "PAR" 1000]).
Proof. split; vm_compute; reflexivity. Qed.

Lemma token_url_not_flights E : req_url (token_request E) <> FLIGHT_OFFERS_URL.
Proof. cbv. discriminate. Qed.

(** C6: the flight GET carries [travelClass] exactly when
    [travel_class.upper()] (Python's full Unicode uppercasing, so that
    "busine" followed by the sharp s U+00DF becomes BUSINESS) is ECONOMY, PREMIUM_ECONOMY, BUSINESS or
    FIRST, and then with that uppercased value, one of the four names; any
    other value leaves the whole run as if no travel class had been given
    (dropped, not rejected). *)
Theorem travel_class_param provider E o d dep a ns rd ch inf tc mx :
  (forall q, In q (snd (search_amadeus_flights provider E o d dep a ns rd ch inf tc mx [])) ->
     req_url q = FLIGHT_OFFERS_URL ->
     dict_lookup "travelClass" (req_params q) =
     match tc with
     | Some t => if py_str_in (py_upper t) VALID_CLASSES
                 then Some (PStr (str_of_code_points (py_upper t))) else None
     | None => None
     end)
  /\ (forall t, py_str_in (py_upper t) VALID_CLASSES = true ->
       In (str_of_code_points (py_upper t)) VALID_CLASSES)
  /\ (forall t tr, py_str_in (py_upper t) VALID_CLASSES = false ->
       search_amadeus_flights provider E o d dep a ns rd ch inf (Some t) mx tr
       = search_amadeus_flights provider E o d dep a ns rd ch inf None mx tr).
Proof.
  split; [|split].
  - intros q Hin Hu.
    destruct (flights_run provider E o d dep a ns rd ch inf tc mx q Hin) as [-> | [tok [-> _]]].
    + exfalso. exact (token_url_not_flights E Hu).
    + apply (flight_params_lookups o d dep a ns rd ch inf tc mx).
  - intros t. apply py_str_in_sound.
  - intros t tr Hx.
    assert (Hp : flight_params o d dep a ns rd ch inf (Some t) mx
                 = flight_params o d dep a ns rd ch inf None mx).
    { unfold flight_params. destruct (str_truthy t); [|reflexivity].
      unfold VALID_CLASSES in Hx. rewrite Hx. reflexivity. }
    unfold search_amadeus_flights. rewrite Hp. reflexivity.
Qed.

Lemma travel_class_param_witness :
  let tc := Some ("busine" ++ String "223"%char EmptyString) in
  let q := flight_request (JStr "abc")
             (flight_params "LHR" "TYO" "2025-01-01" 1 false None 0 0 tc 3) in
  In q (snd (search_amadeus_flights happy creds "LHR" "TYO" "2025-01-01" 1 false None 0 0 tc 3 []))
  /\ dict_lookup "travelClass" (req_params q) = Some (PStr "BUSINESS").
Proof.
  intros tc q.
  assert (Hin : In q (snd (search_amadeus_flights happy creds "LHR" "TYO" "2025-01-01" 1 false
                             None 0 0 tc 3 []))) by (vm_compute; right; left; reflexivity).
  split; [exact Hin|].
  rewrite (proj1 (travel_class_param happy creds "LHR" "TYO" "2025-01-01" 1 false None 0 0 tc 3)
             q Hin eq_refl).
  vm_compute. reflexivity.
Defined.

(** C7 (amended): when the flight GET gets a response that
    [raise_for_status] accepts and whose text is JSON, the function returns
    [str()] of the decoded value (its Python [repr]), not the raw body. *)
Theorem flight_result_is_str provider E o d dep a ns rd ch inf tc mx q r j :
  In q (snd (search_amadeus_flights provider E o d dep a ns rd ch inf tc mx [])) ->
  req_url q = FLIGHT_OFFERS_URL ->
  provider q = Resp r -> response_truthy r = true -> body r = inr j ->
  fst (search_amadeus_flights provider E o d dep a ns rd ch inf tc mx []) = inr (JStr (py_str j)).
Proof.
  intros Hin Hu Hp Ht Hb.
  destruct (flights_run provider E o d dep a ns rd ch inf tc mx q Hin) as [-> | [tok [-> Hx]]].
  - exfalso. exact (token_url_not_flights E Hu).
  - exact (Hx r j Hp Ht Hb).
Qed.

Lemma flight_result_is_str_witness :
  let q := flight_request (JStr "abc")
             (flight_params "LHR" "TYO" "2025-01-01" 1 false None 0 0 (Some "economy") 3) in
  In q (snd (search_amadeus_flights happy creds "LHR" "TYO" "2025-01-01" 1 false None 0 0
               (Some "economy") 3 []))
  /\ fst (search_amadeus_flights happy creds "LHR" "TYO" "2025-01-01" 1 false None 0 0
          (Some "economy") 3 []) = inr (JStr (py_str offers_json)).
Proof.
  intros q. split; [vm_compute; right; left; reflexivity|].
  apply (flight_result_is_str happy creds "LHR" "TYO" "2025-01-01" 1 false None 0 0
           (Some "economy") 3 q (ok FLIGHT_OFFERS_URL offers_json) offers_json);
    vm_compute; auto.
Defined.

(** C7 counterexample: the provider's body [{"data": [true]}] comes back
    as the Python text [{'data': [True]}]. *)
Lemma flight_result_not_verbatim :
  fst (search_amadeus_flights happy creds "LHR" "TYO" "2025-01-01" 1 false None 0 0
         (Some "economy") 3 []) = inr (JStr "{'data': [True]}")
  /\ fst (search_amadeus_flights happy creds "LHR" "TYO" "2025-01-01" 1 false None 0 0
           (Some "economy") 3 [])
     <> inr (JStr (text (ok FLIGHT_OFFERS_URL offers_json))).
Proof.
  split; [vm_compute; reflexivity|].
  vm_compute. intros H. discriminate H.
Qed.

(** C8 (amended): the ids kept from a hotel list that parses are the
    truthy [hotelId] fields of its data items, in the provider's order, and
    the first ones of them ([hotel_ids[:max_hotels]]): the first
    [max_hotels] when [max_hotels >= 0], so at most [max_hotels]; all but
    the last [-max_hotels] when it is negative. *)
Theorem hotel_ids_bounded_ordered j n ids :
  extract_hotel_ids j n = inr ids ->
  exists data items,
    py_get j "data" (JArr []) = inr data /\ py_iter data = inr items
    /\ let found := filter json_truthy (map hotel_id_field items) in
       Forall (fun v => json_truthy v = true) ids
       /\ sublist ids (map hotel_id_field items)
       /\ (exists rest, found = (ids ++ rest)%list)
       /\ (0 <= n -> ids = firstn (Z.to_nat n) found /\ Z.of_nat (length ids) <= n)
       /\ (n < 0 -> ids = firstn (length found - Z.to_nat (- n)) found).
Proof.
  unfold extract_hotel_ids, sbind.
  destruct (py_get j "data" (JArr [])) as [e|data] eqn:H1; [discriminate|].
  destruct (py_iter data) as [e|items] eqn:H2; [discriminate|].
  destruct (collect_hotel_ids items) as [e|ids0] eqn:H3; [discriminate|].
  intros H; injection H as <-.
  exists data, items. split; [reflexivity|]. split; [exact H2|].
  pose proof (collect_hotel_ids_sublist _ _ H3) as Hs.
  rewrite (collect_hotel_ids_ok _ _ H3) in Hs |- *. cbv zeta.
  set (found := filter json_truthy (map hotel_id_field items)) in *.
  assert (Hk : exists k, py_slice_to found n = firstn k found)
    by (unfold py_slice_to; destruct (0 <=? n); eexists; reflexivity).
  destruct Hk as [k Hk].
  split; [|split; [|split; [|split]]].
  - rewrite Hk. apply Forall_forall. intros x Hx.
    assert (Hx' : In x found)
      by (rewrite <- (firstn_skipn k found); apply in_or_app; left; exact Hx).
    subst found. apply filter_In in Hx'. apply Hx'.
  - rewrite Hk. apply sublist_firstn. exact Hs.
  - rewrite Hk. exists (skipn k found). symmetry. apply firstn_skipn.
  - intros Hn. split; [|apply py_slice_to_length; exact Hn].
    unfold py_slice_to. apply Z.leb_le in Hn. rewrite Hn. reflexivity.
  - intros Hn. unfold py_slice_to. destruct (Z.leb_spec 0 n) as [Hle|_]; [lia|].
    f_equal. lia.
Qed.

Lemma hotel_ids_bounded_ordered_witness :
  extract_hotel_ids two_hotels 1 = inr [JStr "H1"]
  /\ Forall (fun v => json_truthy v = true) [JStr "H1"].
Proof.
  split; [reflexivity|].
  destruct (hotel_ids_bounded_ordered two_hotels 1 [JStr "H1"] eq_refl)
    as [data [items [_ [_ [Ht _]]]]].
  exact Ht.
Defined.

(** C8 counterexample: [hotel_ids[:-1]] keeps one id of two although
    [max_hotels = -1]. *)
Lemma hotel_ids_negative_max :
  extract_hotel_ids two_hotels (-1) = inr [JStr "H1"]
  /\ Z.of_nat (length [JStr "H1"]) > -1.
Proof. split; [reflexivity | cbn; lia]. Qed.

(** C9: the flight GET carries [children] exactly when [children > 0] and
    [infants] exactly when [infants > 0]; zero counts are left out. *)
Theorem passenger_counts_param provider E o d dep a ns rd ch inf tc mx q :
  In q (snd (search_amadeus_flights provider E o d dep a ns rd ch inf tc mx [])) ->
  req_url q = FLIGHT_OFFERS_URL ->
  dict_lookup "children" (req_params q) = (if ch >? 0 then Some (PInt ch) else None)
  /\ dict_lookup "infants" (req_params q) = (if inf >? 0 then Some (PInt inf) else None).
Proof.
  intros Hin Hu.
  destruct (flights_run provider E o d dep a ns rd ch inf tc mx q Hin) as [-> | [tok [-> _]]].
  - exfalso. exact (token_url_not_flights E Hu).
  - destruct (flight_params_lookups o d dep a ns rd ch inf tc mx) as [Hc [Hi _]].
    split; assumption.
Qed.

Lemma passenger_counts_param_witness :
  let q := flight_request (JStr "abc")
             (flight_params "LHR" "TYO" "2025-01-01" 1 false None 0 0 None 3) in
  In q (snd (search_amadeus_flights happy creds "LHR" "TYO" "2025-01-01" 1 false None 0 0 None 3 []))
  /\ dict_lookup "children" (req_params q) = None
  /\ dict_lookup "infants" (req_params q) = None.
Proof.
  intros q. split; [vm_compute; right; left; reflexivity|].
  apply (passenger_counts_param happy creds "LHR" "TYO" "2025-01-01" 1 false None 0 0 None 3 q);
    vm_compute; auto.
Defined.

(** C10: once authenticated, a 2xx hotel-list response ends in a step-1
    error dict carrying the parse failure, never an exception, when its body
    is not JSON (the [requests] JSONDecodeError, a ValueError, is also a
    RequestException, whose handler comes first: message
    "Hotel List API error", the decoder's parse message in [details]) or when
    extracting the ids raises a ValueError, KeyError or TypeError (message
    "Could not parse hotel IDs: ..."). *)
Theorem list_parse_errors provider E city cin cout ad use radius maxh cur pr room view tok r :
  fst (hotel_auth provider E use []) = inr (inr tok) ->
  provider (list_request use tok city radius) = Resp r ->
  response_truthy r = true ->
  (forall msg, body r = inl msg ->
     fst (search_amadeus_hotels provider E city cin cout ad use radius maxh cur pr room view [])
     = inr (HErr "Hotel List API error" (Some msg) Step1))
  /\ (forall j e, body r = inr j -> extract_hotel_ids j maxh = inl e ->
       is_parse_exception e = true ->
       fst (search_amadeus_hotels provider E city cin cout ad use radius maxh cur pr room view [])
       = inr (HErr ("Could not parse hotel IDs: " ++ exc_str e) None Step1)).
Proof.
  intros H1 Hp Ht.
  destruct (hotel_auth_run provider E use []) as [xa [Ha _]].
  rewrite Ha in H1; cbn in H1; subst xa.
  destruct (rfs_cases r [auth_request E use; list_request use tok city radius])
    as [[_ Hr]|[Hf _]]; [|congruence].
  split.
  - intros msg Hb.
    assert (HL : hotel_list provider use tok city radius maxh [auth_request E use] =
                 (inr (inl (HErr "Hotel List API error" (Some msg) Step1)),
                  [auth_request E use; list_request use tok city radius])).
    { unfold hotel_list, try_except, bind, send, lift, ret, raise, resp_json.
      rewrite Hp. cbn -[raise_for_status extract_hotel_ids]. rewrite Hr.
      cbn -[extract_hotel_ids]. rewrite Hb. reflexivity. }
    unfold search_amadeus_hotels, bind. rewrite Ha. cbn -[hotel_list]. rewrite HL. reflexivity.
  - intros j e Hb He Hpe.
    assert (HL : hotel_list provider use tok city radius maxh [auth_request E use] =
                 (inr (inl (HErr ("Could not parse hotel IDs: " ++ exc_str e) None Step1)),
                  [auth_request E use; list_request use tok city radius])).
    { unfold hotel_list, try_except, bind, send, lift, ret, raise, resp_json.
      rewrite Hp. cbn -[raise_for_status extract_hotel_ids]. rewrite Hr.
      cbn -[extract_hotel_ids]. rewrite Hb. cbn -[extract_hotel_ids]. rewrite He.
      cbn -[extract_hotel_ids]. rewrite (extract_hotel_ids_raises _ _ _ He), Hpe.
      reflexivity. }
    unfold search_amadeus_hotels, bind. rewrite Ha. cbn -[hotel_list]. rewrite HL. reflexivity.
Qed.

Lemma list_parse_errors_witness :
  fst (hotel_auth html_list creds true []) = inr (inr (JStr "abc"))
  /\ fst (search_amadeus_hotels html_list creds "PAR" "2025-01-01" "2025-01-02" 1 true 1000 5
          "EUR" "1-10000" 1 EmptyString [])
     = inr (HErr "Hotel List API error" (Some "Expecting value: line 1 column 1 (char 0)") Step1)
  /\ fst (search_amadeus_hotels (Samples.list_is (JObj [("data", JNum 5)])) creds "PAR"
          "2025-01-01" "2025-01-02" 1 true 1000 5 "EUR" "1-10000" 1 EmptyString [])
     = inr (HErr ("Could not parse hotel IDs: " ++ "'int' object is not iterable") None Step1).
Proof.
  split; [vm_compute; reflexivity|]. split.
  - refine (proj1 (list_parse_errors html_list creds "PAR" "2025-01-01" "2025-01-02" 1 true 1000 5
              "EUR" "1-10000" 1 EmptyString (JStr "abc")
              {| status := 200; reason := "OK"; resp_url := hotel_list_url true;
                 text := "<html></html>";
                 body := inl "Expecting value: line 1 column 1 (char 0)" |} _ _ _) _ _);
      vm_compute; reflexivity.
  - refine (proj2 (list_parse_errors (Samples.list_is (JObj [("data", JNum 5)])) creds "PAR"
              "2025-01-01" "2025-01-02" 1 true 1000 5 "EUR" "1-10000" 1 EmptyString (JStr "abc")
              (ok (hotel_list_url true) (JObj [("data", JNum 5)])) _ _ _)
              (JObj [("data", JNum 5)]) (TypeError "'int' object is not iterable") _ _ _);
      vm_compute; reflexivity.
Defined.

End Claims.

(* ------------------------------------------------------------------ *)
(** ** Further properties of the code *)

Module Extras.
Import Py Net Amadeus Fixtures Facts Samples Eval.

(** With both credentials set, a token POST that fails in transport, gets a 4xx/5xx status or a non-JSON body makes [search_amadeus_flights] return ["Error fetching Amadeus token: ..."] (the exception text) after that one request. *)
Theorem flight_token_failure provider E o d dep a ns rd ch inf tc mx :
  opt_str_truthy (AMADEUS_API_KEY E) = true ->
  opt_str_truthy (AMADEUS_API_SECRET E) = true ->
  let run := search_amadeus_flights provider E o d dep a ns rd ch inf tc mx [] in
  (forall m, provider (token_request E) = Fail m ->
     run = (inr (JStr ("Error fetching Amadeus token: " ++ m)), [token_request E]))
  /\ (forall r, provider (token_request E) = Resp r -> response_truthy r = false ->
       run = (inr (JStr ("Error fetching Amadeus token: " ++ http_error_message r)),
              [token_request E]))
  /\ (forall r m, provider (token_request E) = Resp r -> response_truthy r = true ->
       body r = inl m ->
       run = (inr (JStr ("Error fetching Amadeus token: " ++ m)), [token_request E])).
Proof.
  intros Hk Hs run; subst run.
  unfold search_amadeus_flights, bind, lift.
  rewrite (get_token_eval provider E [] Hk Hs). cbn [app].
  split; [|split].
  - intros m Hp. rewrite Hp. reflexivity.
  - intros r Hp Ht. rewrite Hp, Ht. reflexivity.
  - intros r m Hp Ht Hb. rewrite Hp, Ht, Hb. reflexivity.
Qed.

(** The early return tests ["Error" in token] on the token itself: a genuine access token whose text contains [Error] is returned as the search result, and no flight request is sent. *)
Theorem flight_token_with_error_text provider E o d dep a ns rd ch inf tc mx r kvs t :
  opt_str_truthy (AMADEUS_API_KEY E) = true ->
  opt_str_truthy (AMADEUS_API_SECRET E) = true ->
  provider (token_request E) = Resp r -> response_truthy r = true ->
  body r = inr (JObj kvs) -> assoc "access_token" kvs = Some (JStr t) ->
  str_contains "Error" t = true ->
  search_amadeus_flights provider E o d dep a ns rd ch inf tc mx [] = (inr (JStr t), [token_request E]).
Proof.
  intros Hk Hs Hp Ht Hb Ha Hc.
  unfold search_amadeus_flights, bind, lift.
  rewrite (get_token_eval provider E [] Hk Hs), Hp, Ht, Hb. cbn -[str_contains].
  rewrite Ha. cbn -[str_contains]. rewrite Hc. reflexivity.
Qed.

(** An [access_token] that is null, a boolean or a number (or absent) makes ["Error" in token] raise [TypeError]; the exception leaves [search_amadeus_flights] after the token request alone. *)
Theorem flight_scalar_token provider E o d dep a ns rd ch inf tc mx r j v :
  opt_str_truthy (AMADEUS_API_KEY E) = true ->
  opt_str_truthy (AMADEUS_API_SECRET E) = true ->
  provider (token_request E) = Resp r -> response_truthy r = true ->
  body r = inr j -> py_get j "access_token" JNull = inr v ->
  In (type_name v) ["NoneType"; "bool"; "int"] ->
  search_amadeus_flights provider E o d dep a ns rd ch inf tc mx []
  = (inl (TypeError ("argument of type '" ++ type_name v ++ "' is not iterable")),
     [token_request E]).
Proof.
  intros Hk Hs Hp Ht Hb Hg Hv.
  unfold search_amadeus_flights, bind, lift.
  rewrite (get_token_eval provider E [] Hk Hs), Hp, Ht, Hb, Hg.
  destruct v; cbn in Hv |- *; try reflexivity; intuition discriminate.
Qed.

(** Once a string token without [Error] is in hand, the flight search sends exactly the token POST and one GET; a transport failure gives ["Error fetching flight offers: <exception>"], a 4xx/5xx status gives ["Error from Amadeus API: <response text>"], and a non-JSON 2xx body gives the decoder message. *)
Theorem flight_get_failures provider E o d dep a ns rd ch inf tc mx t :
  fst (_get_amadeus_token provider E []) = inr (JStr t) ->
  str_contains "Error" t = false ->
  let q := flight_request (JStr t) (flight_params o d dep a ns rd ch inf tc mx) in
  let run := search_amadeus_flights provider E o d dep a ns rd ch inf tc mx [] in
  snd run = [token_request E; q]
  /\ (forall m, provider q = Fail m -> fst run = inr (JStr ("Error fetching flight offers: " ++ m)))
  /\ (forall r, provider q = Resp r -> response_truthy r = false ->
       fst run = inr (JStr ("Error from Amadeus API: " ++ text r)))
  /\ (forall r m, provider q = Resp r -> response_truthy r = true -> body r = inl m ->
       fst run = inr (JStr ("Error fetching flight offers: " ++ m))).
Proof.
  intros Hg Hc q run.
  assert (Ht : _get_amadeus_token provider E [] = (inr (JStr t), [token_request E])).
  { destruct (get_token_trace provider E []) as [H | H].
    - rewrite H in Hg. cbn in Hg. injection Hg as <-. discriminate Hc.
    - destruct (_get_amadeus_token provider E []) as [x tr]; cbn in *. subst. reflexivity. }
  assert (Hr : run = flight_get provider (JStr t) (flight_params o d dep a ns rd ch inf tc mx)
                       [token_request E]).
  { subst run. unfold search_amadeus_flights, bind, lift. rewrite Ht.
    cbn -[str_contains flight_get]. rewrite Hc. reflexivity. }
  rewrite Hr, flight_get_eval. fold q. cbn [fst snd app].
  split; [reflexivity|]. split; [|split].
  - intros m Hp. rewrite Hp. reflexivity.
  - intros r Hp Hf. rewrite Hp, Hf. reflexivity.
  - intros r m Hp Hf Hb. rewrite Hp, Hf, Hb. reflexivity.
Qed.

(** A flight search makes at most two requests: none when the configuration error is returned, otherwise the token POST, then one flight-offers GET carrying the token returned by [_get_amadeus_token], sent only when ["Error" in token] is false. *)
Theorem flight_requests_in_order provider E o d dep a ns rd ch inf tc mx :
  let run := search_amadeus_flights provider E o d dep a ns rd ch inf tc mx [] in
  run = (inr (JStr config_error), [])
  \/ snd run = [token_request E]
  \/ (exists t, fst (_get_amadeus_token provider E []) = inr t /\ py_in "Error" t = inr false
        /\ snd run = [token_request E;
                      flight_request t (flight_params o d dep a ns rd ch inf tc mx)]).
Proof. apply flights_trace_shape. Qed.

(** No request of [search_amadeus_flights] has a timeout, while every request of [search_amadeus_hotels] has [timeout=20]. *)
Theorem request_timeouts provider E o d dep a ns rd ch inf tc mx
    city cin cout ad use radius maxh cur pr room view :
  Forall (fun q => req_timeout q = None)
    (snd (search_amadeus_flights provider E o d dep a ns rd ch inf tc mx []))
  /\ Forall (fun q => req_timeout q = Some 20)
       (snd (search_amadeus_hotels provider E city cin cout ad use radius maxh cur pr room view [])).
Proof.
  split.
  - destruct (flights_trace_shape provider E o d dep a ns rd ch inf tc mx)
      as [H | [H | [t [_ [_ H]]]]]; [rewrite H | rewrite H | rewrite H]; repeat constructor.
  - destruct (hotel_trace_shape provider E city cin cout ad use radius maxh cur pr room view)
      as [H | [tok [_ [H | [ps H]]]]]; rewrite H; repeat constructor.
Qed.

(** The flight-offers GET always carries the origin, destination, departure date, adults and [max]; [nonStop] is the string [true] or [false]; [returnDate] is sent exactly when it is truthy. *)
Theorem flight_base_params provider E o d dep a ns rd ch inf tc mx q :
  In q (snd (search_amadeus_flights provider E o d dep a ns rd ch inf tc mx [])) ->
  req_url q = FLIGHT_OFFERS_URL ->
  dict_lookup "originLocationCode" (req_params q) = Some (PStr o)
  /\ dict_lookup "destinationLocationCode" (req_params q) = Some (PStr d)
  /\ dict_lookup "departureDate" (req_params q) = Some (PStr dep)
  /\ dict_lookup "adults" (req_params q) = Some (PInt a)
  /\ dict_lookup "nonStop" (req_params q) = Some (PStr (if ns then "true" else "false"))
  /\ dict_lookup "max" (req_params q) = Some (PInt mx)
  /\ dict_lookup "returnDate" (req_params q)
     = (if opt_str_truthy rd then Some (opt_pyval rd) else None).
Proof.
  intros Hin Hu.
  destruct (flights_trace_shape provider E o d dep a ns rd ch inf tc mx)
    as [H | [H | [t [_ [_ H]]]]]; rewrite H in Hin; cbn in Hin.
  - contradiction.
  - destruct Hin as [<- | []]. cbv in Hu. discriminate.
  - destruct Hin as [<- | [<- | []]]; [cbv in Hu; discriminate|].
    cbn [req_params flight_request]. unfold flight_params.
    destruct tc as [tc|]; [destruct (str_truthy tc); [destruct (py_str_in _ _)|]|];
      rewrite ?dict_lookup_set;
      destruct (opt_str_truthy rd), (ch >? 0), (inf >? 0);
      rewrite ?dict_lookup_set; cbn; repeat split.
Qed.

(** The auth stage of [search_amadeus_hotels]: a transport failure, a 4xx/5xx status or a non-JSON body returns [Amadeus authentication failed] with [details] the exception text (for a 4xx/5xx the status message, not the body, as a failed response is falsy); a falsy [access_token] returns [No access_token in token response] with the response text. *)
Theorem hotel_auth_failures provider E city cin cout ad use radius maxh cur pr room view :
  let run := search_amadeus_hotels provider E city cin cout ad use radius maxh cur pr room view [] in
  let o := provider (auth_request E use) in
  (forall m, o = Fail m ->
     run = (inr (HErr "Amadeus authentication failed" (Some m) StepAuth), [auth_request E use]))
  /\ (forall r, o = Resp r -> response_truthy r = false ->
       run = (inr (HErr "Amadeus authentication failed" (Some (http_error_message r)) StepAuth),
              [auth_request E use]))
  /\ (forall r m, o = Resp r -> response_truthy r = true -> body r = inl m ->
       run = (inr (HErr "Amadeus authentication failed" (Some m) StepAuth), [auth_request E use]))
  /\ (forall r j v, o = Resp r -> response_truthy r = true -> body r = inr j ->
       py_get j "access_token" JNull = inr v -> json_truthy v = false ->
       run = (inr (HErr "No access_token in token response" (Some (text r)) StepAuth),
              [auth_request E use])).
Proof.
  intros run o; subst run o.
  unfold search_amadeus_hotels, bind. rewrite hotel_auth_eval. cbn [app].
  split; [|split; [|split]].
  - intros m Hp. rewrite Hp. reflexivity.
  - intros r Hp Ht. rewrite Hp, Ht. reflexivity.
  - intros r m Hp Ht Hb. rewrite Hp, Ht, Hb. reflexivity.
  - intros r j v Hp Ht Hb Hg Hv. rewrite Hp, Ht, Hb, Hg, Hv. reflexivity.
Qed.

(** After authentication, a transport failure or 4xx/5xx status of the hotel-list GET returns [Hotel List API error] step 1 with the exception text in [details]; a JSON object without [data] yields no ids and the step-1 [No hotels found in <city>] error. *)
Theorem hotel_list_failures provider E city cin cout ad use radius maxh cur pr room view tok :
  fst (hotel_auth provider E use []) = inr (inr tok) ->
  let run := search_amadeus_hotels provider E city cin cout ad use radius maxh cur pr room view [] in
  let q := list_request use tok city radius in
  (forall m, provider q = Fail m ->
     run = (inr (HErr "Hotel List API error" (Some m) Step1), [auth_request E use; q]))
  /\ (forall r, provider q = Resp r -> response_truthy r = false ->
       run = (inr (HErr "Hotel List API error" (Some (http_error_message r)) Step1),
              [auth_request E use; q]))
  /\ (forall r kvs, provider q = Resp r -> response_truthy r = true -> body r = inr (JObj kvs) ->
       assoc "data" kvs = None ->
       run = (inr (HErr ("No hotels found in " ++ city ++ ". Check city code or increase radius.")
                        None Step1), [auth_request E use; q])).
Proof.
  intros Ha run q; subst run q.
  unfold search_amadeus_hotels, bind. rewrite (auth_ok _ _ _ _ Ha).
  cbn -[hotel_list]. rewrite hotel_list_eval. cbn [app].
  split; [|split].
  - intros m Hp. rewrite Hp. reflexivity.
  - intros r Hp Ht. rewrite Hp, Ht. reflexivity.
  - intros r kvs Hp Ht Hb Hd. rewrite Hp, Ht, Hb.
    unfold extract_hotel_ids, sbind, py_get. rewrite Hd. cbn -[py_slice_to].
    rewrite py_slice_to_nil. reflexivity.
Qed.

(** After authentication, a 2xx hotel list whose JSON is not an object, or whose [data] list holds an item that is not an object, raises [AttributeError] out of [search_amadeus_hotels]: it is not among the exceptions the list stage catches. *)
Theorem hotel_list_attribute_error provider E city cin cout ad use radius maxh cur pr room view
    tok r j :
  fst (hotel_auth provider E use []) = inr (inr tok) ->
  provider (list_request use tok city radius) = Resp r ->
  response_truthy r = true -> body r = inr j ->
  let run := search_amadeus_hotels provider E city cin cout ad use radius maxh cur pr room view [] in
  (type_name j <> "dict" ->
     run = (inl (AttributeError ("'" ++ type_name j ++ "' object has no attribute 'get'")),
            [auth_request E use; list_request use tok city radius]))
  /\ (forall kvs items, j = JObj kvs -> assoc "data" kvs = Some (JArr items) ->
       Exists (fun h => type_name h <> "dict") items ->
       exists m, run = (inl (AttributeError m),
                        [auth_request E use; list_request use tok city radius])).
Proof.
  intros Ha Hp Ht Hb run; subst run.
  unfold search_amadeus_hotels, bind. rewrite (auth_ok _ _ _ _ Ha).
  cbn -[hotel_list]. rewrite hotel_list_eval, Hp, Ht, Hb. cbn [app].
  split.
  - intros Hj. destruct j; try (exfalso; apply Hj; reflexivity); reflexivity.
  - intros kvs items -> Hd Hx. destruct (collect_non_dict items Hx) as [m Hm].
    exists m. unfold extract_hotel_ids, sbind, py_get. rewrite Hd. cbn -[collect_hotel_ids].
    rewrite Hm. reflexivity.
Qed.

(** With [max_hotels = 0] the hotel search never sends the offers request and never returns an offers payload. *)
Theorem hotel_zero_max provider E city cin cout ad use radius cur pr room view :
  let run := search_amadeus_hotels provider E city cin cout ad use radius 0 cur pr room view [] in
  (length (snd run) <= 2)%nat /\ forall j, fst run <> inr (HOk j).
Proof.
  intros run; subst run.
  unfold search_amadeus_hotels, bind.
  destruct (hotel_auth_run provider E use []) as [xa [Ha Hx]]. rewrite Ha.
  destruct xa as [e | [r | tok]]; cbn -[hotel_list];
    [split; [auto | intros j0; discriminate] | |].
  { destruct (proj1 Hx r eq_refl) as [m [d ->]]. split; [auto | intros j0; discriminate]. }
  rewrite hotel_list_eval.
  destruct (provider (list_request use tok city radius)) as [r|m]; cbn;
    [|split; [auto | intros j0; discriminate]].
  destruct (response_truthy r); cbn; [|split; [auto | intros j0; discriminate]].
  destruct (body r) as [m|j]; cbn; [split; [auto | intros j0; discriminate]|].
  destruct (extract_hotel_ids j 0) as [e|ids] eqn:He; cbn.
  - destruct (is_parse_exception e); cbn; split; auto; intros j0; discriminate.
  - rewrite (extract_zero _ _ He). split; [auto | intros j0; discriminate].
Qed.

(** When every item of [data] is an object, the ids extracted are the truthy [hotelId] values in order, cut to [[:max_hotels]]. *)
Theorem extract_hotel_ids_dicts kvs items n :
  assoc "data" kvs = Some (JArr items) ->
  Forall (fun h => type_name h = "dict") items ->
  extract_hotel_ids (JObj kvs) n
  = inr (py_slice_to (filter json_truthy (map hotel_id_field items)) n).
Proof.
  intros Hd Hf. unfold extract_hotel_ids, sbind, py_get. rewrite Hd. cbn -[collect_hotel_ids].
  rewrite (collect_dicts _ Hf). reflexivity.
Qed.

(** After authentication, a hotel list whose ids include one that is not a string (for example a number) makes [",".join] raise [TypeError] out of [search_amadeus_hotels] before any offers request. *)
Theorem hotel_join_type_error provider E city cin cout ad use radius maxh cur pr room view tok ids :
  fst (hotel_auth provider E use []) = inr (inr tok) ->
  fst (hotel_list provider use tok city radius maxh [auth_request E use]) = inr (inr ids) ->
  Exists (fun x => type_name x <> "str") ids ->
  exists m, search_amadeus_hotels provider E city cin cout ad use radius maxh cur pr room view []
            = (inl (TypeError m), [auth_request E use; list_request use tok city radius]).
Proof.
  intros Ha Hl Hx.
  destruct (py_join_non_str 0 "," ids Hx) as [m Hm]. exists m.
  unfold search_amadeus_hotels, bind. rewrite (auth_ok _ _ _ _ Ha).
  cbn -[hotel_list py_join]. rewrite (list_ok _ _ _ _ _ _ _ _ Hl). cbn -[py_join].
  destruct ids as [|x ids']; [inversion Hx|].
  unfold py_join in *. rewrite Hm. reflexivity.
Qed.

(** When the list stage yields string ids, the third request is the offers GET with [hotelIds] their comma-joined text; its transport failure, 4xx/5xx status or non-JSON body returns [Hotel Offers API error] step 2 with the exception text, and a 2xx JSON body is returned unchanged. *)
Theorem hotel_offers_outcomes provider E city cin cout ad use radius maxh cur pr room view tok ss :
  fst (hotel_auth provider E use []) = inr (inr tok) ->
  fst (hotel_list provider use tok city radius maxh [auth_request E use]) = inr (inr (map JStr ss)) ->
  ss <> [] ->
  let q := offers_request use tok
             (offer_params (String.concat "," ss) cin cout ad room cur pr view) in
  let run := search_amadeus_hotels provider E city cin cout ad use radius maxh cur pr room view [] in
  snd run = [auth_request E use; list_request use tok city radius; q]
  /\ (forall m, provider q = Fail m -> fst run = inr (HErr "Hotel Offers API error" (Some m) Step2))
  /\ (forall r, provider q = Resp r -> response_truthy r = false ->
       fst run = inr (HErr "Hotel Offers API error" (Some (http_error_message r)) Step2))
  /\ (forall r m, provider q = Resp r -> response_truthy r = true -> body r = inl m ->
       fst run = inr (HErr "Hotel Offers API error" (Some m) Step2))
  /\ (forall r j, provider q = Resp r -> response_truthy r = true -> body r = inr j ->
       fst run = inr (HOk j)).
Proof.
  intros Ha Hl Hne q run.
  assert (Hr : run = hotel_offers provider use tok
                       (offer_params (String.concat "," ss) cin cout ad room cur pr view)
                       [auth_request E use; list_request use tok city radius]).
  { subst run. unfold search_amadeus_hotels, bind. rewrite (auth_ok _ _ _ _ Ha).
    cbn -[hotel_list py_join hotel_offers]. rewrite (list_ok _ _ _ _ _ _ _ _ Hl).
    cbn -[py_join hotel_offers].
    destruct ss as [|s ss']; [congruence|].
    unfold py_join. cbn -[py_join_from hotel_offers offer_params].
    change (JStr s :: map JStr ss') with (map JStr (s :: ss')).
    rewrite (py_join_strs 0 "," (s :: ss') Hne). reflexivity. }
  rewrite Hr, hotel_offers_eval. fold q. cbn [fst snd app].
  split; [reflexivity|]. split; [|split; [|split]].
  - intros m Hp. rewrite Hp. reflexivity.
  - intros r Hp Ht. rewrite Hp, Ht. reflexivity.
  - intros r m Hp Ht Hb. rewrite Hp, Ht, Hb. reflexivity.
  - intros r j Hp Ht Hb. rewrite Hp, Ht, Hb. reflexivity.
Qed.

(** Every hotel request after the token POST carries [Authorization: Bearer <token>] with the truthy token the auth stage accepted. *)
Theorem hotel_bearer_token provider E city cin cout ad use radius maxh cur pr room view :
  let run := search_amadeus_hotels provider E city cin cout ad use radius maxh cur pr room view [] in
  Forall (fun q => exists tok, fst (hotel_auth provider E use []) = inr (inr tok)
                      /\ json_truthy tok = true /\ req_headers q = bearer tok)
    (tl (snd run)).
Proof.
  intros run; subst run.
  destruct (hotel_trace_shape provider E city cin cout ad use radius maxh cur pr room view)
    as [H | [tok [Ha [H | [ps H]]]]]; rewrite H; cbn [tl]; [constructor| |];
    pose proof (auth_ok_truthy _ _ _ _ Ha);
    repeat constructor; exists tok; auto.
Qed.

Lemma flight_token_failure_witness :
  search_amadeus_flights (fun _ => down) creds "LHR" "TYO" "2025-01-01" 1 false None 0 0 None 3 []
  = (inr (JStr "Error fetching Amadeus token: Connection refused"), [token_request creds]).
Proof.
  refine (proj1 (flight_token_failure (fun _ => down) creds "LHR" "TYO" "2025-01-01" 1 false None
                   0 0 None 3 _ _) "Connection refused" _); reflexivity.
Defined.

Lemma flight_token_with_error_text_witness :
  search_amadeus_flights (token_is (JStr "MyErrorToken")) creds "LHR" "TYO" "2025-01-01" 1 false
    None 0 0 None 3 [] = (inr (JStr "MyErrorToken"), [token_request creds]).
Proof.
  apply (flight_token_with_error_text (token_is (JStr "MyErrorToken")) creds "LHR" "TYO"
           "2025-01-01" 1 false None 0 0 None 3
           (ok TOKEN_URL (JObj [("access_token", JStr "MyErrorToken")]))
           [("access_token", JStr "MyErrorToken")] "MyErrorToken"); reflexivity.
Defined.

Lemma flight_scalar_token_witness :
  search_amadeus_flights (token_is (JNum 42)) creds "LHR" "TYO" "2025-01-01" 1 false
    None 0 0 None 3 []
  = (inl (TypeError "argument of type 'int' is not iterable"), [token_request creds]).
Proof.
  apply (flight_scalar_token (token_is (JNum 42)) creds "LHR" "TYO" "2025-01-01" 1 false
           None 0 0 None 3 (ok TOKEN_URL (JObj [("access_token", JNum 42)]))
           (JObj [("access_token", JNum 42)]) (JNum 42));
    try reflexivity. cbn. auto.
Defined.

Lemma flight_get_failures_witness :
  fst (search_amadeus_flights (fail_at FLIGHT_OFFERS_URL (unauthorized FLIGHT_OFFERS_URL) happy)
         creds "LHR" "TYO" "2025-01-01" 1 false None 0 0 None 3 [])
  = inr (JStr "Error from Amadeus API: {}").
Proof.
  refine (proj1 (proj2 (proj2 (flight_get_failures
            (fail_at FLIGHT_OFFERS_URL (unauthorized FLIGHT_OFFERS_URL) happy)
            creds "LHR" "TYO" "2025-01-01" 1 false None 0 0 None 3 "abc" _ _)))
            (unauthorized_resp FLIGHT_OFFERS_URL) _ _); reflexivity.
Defined.

Lemma flight_base_params_witness :
  dict_lookup "nonStop"
    (req_params (flight_request (JStr "abc")
                  (flight_params "LHR" "TYO" "2025-01-01" 1 true None 0 0 None 3)))
  = Some (PStr "true").
Proof.
  refine (proj1 (proj2 (proj2 (proj2 (proj2 (flight_base_params happy creds "LHR" "TYO"
            "2025-01-01" 1 true None 0 0 None 3
            (flight_request (JStr "abc")
               (flight_params "LHR" "TYO" "2025-01-01" 1 true None 0 0 None 3)) _ _))))));
    [vm_compute; right; left; reflexivity | reflexivity].
Defined.

Lemma hotel_list_failures_witness :
  search_amadeus_hotels (fail_at (hotel_list_url true) (unauthorized (hotel_list_url true)) happy)
    creds "PAR" "2025-01-01" "2025-01-02" 1 true 1000 5 "EUR" "1-10000" 1 EmptyString []
  = (inr (HErr "Hotel List API error"
            (Some ("401 Client Error: Unauthorized for url: " ++ hotel_list_url true)) Step1),
     [auth_request creds true; list_request true (JStr "abc") "PAR" 1000]).
Proof.
  refine (proj1 (proj2 (hotel_list_failures
            (fail_at (hotel_list_url true) (unauthorized (hotel_list_url true)) happy)
            creds "PAR" "2025-01-01" "2025-01-02" 1 true 1000 5 "EUR" "1-10000" 1 EmptyString
            (JStr "abc") _)) (unauthorized_resp (hotel_list_url true)) _ _); reflexivity.
Defined.

Lemma hotel_list_attribute_error_witness :
  exists m, search_amadeus_hotels (list_is (JObj [("data", JArr [JStr "H1"])]))
    creds "PAR" "2025-01-01" "2025-01-02" 1 true 1000 5 "EUR" "1-10000" 1 EmptyString []
  = (inl (AttributeError m), [auth_request creds true; list_request true (JStr "abc") "PAR" 1000]).
Proof.
  refine (proj2 (hotel_list_attribute_error (list_is (JObj [("data", JArr [JStr "H1"])]))
            creds "PAR" "2025-01-01" "2025-01-02" 1 true 1000 5 "EUR" "1-10000" 1 EmptyString
            (JStr "abc") (ok (hotel_list_url true) (JObj [("data", JArr [JStr "H1"])]))
            (JObj [("data", JArr [JStr "H1"])]) _ _ _ _)
            [("data", JArr [JStr "H1"])] [JStr "H1"] _ _ _); try reflexivity.
  constructor. discriminate.
Defined.

Lemma extract_hotel_ids_dicts_witness :
  extract_hotel_ids (JObj [("data", JArr [JObj [("hotelId", JStr "H1")]; JObj [];
                                          JObj [("hotelId", JStr "H2")]])]) 5
  = inr [JStr "H1"; JStr "H2"].
Proof.
  refine (extract_hotel_ids_dicts [("data", JArr [JObj [("hotelId", JStr "H1")]; JObj [];
                                                  JObj [("hotelId", JStr "H2")]])]
            [JObj [("hotelId", JStr "H1")]; JObj []; JObj [("hotelId", JStr "H2")]] 5 _ _);
    [reflexivity | repeat constructor].
Defined.

Lemma hotel_join_type_error_witness :
  exists m, search_amadeus_hotels (list_is (JObj [("data", JArr [JObj [("hotelId", JNum 7)]])]))
    creds "PAR" "2025-01-01" "2025-01-02" 1 true 1000 5 "EUR" "1-10000" 1 EmptyString []
  = (inl (TypeError m), [auth_request creds true; list_request true (JStr "abc") "PAR" 1000]).
Proof.
  apply (hotel_join_type_error (list_is (JObj [("data", JArr [JObj [("hotelId", JNum 7)]])]))
           creds "PAR" "2025-01-01" "2025-01-02" 1 true 1000 5 "EUR" "1-10000" 1 EmptyString
           (JStr "abc") [JNum 7]); try reflexivity.
  constructor. discriminate.
Defined.

Lemma hotel_offers_outcomes_witness :
  fst (search_amadeus_hotels happy creds "PAR" "2025-01-01" "2025-01-02" 1 true 1000 5
         "EUR" "1-10000" 1 EmptyString [])
  = inr (HOk offers_json).
Proof.
  refine (proj2 (proj2 (proj2 (proj2 (hotel_offers_outcomes happy creds "PAR" "2025-01-01"
            "2025-01-02" 1 true 1000 5 "EUR" "1-10000" 1 EmptyString (JStr "abc") ["H1"; "H2"]
            _ _ _)))) _ _ _ _ _); try reflexivity. discriminate.
Defined.


End Extras.

Module AgentExtras.
Import Py Agent AgentEval.
(** With falsy [user_queries] ([None], an empty string or an empty list) [run_session] sends nothing to the runner; unless [get_session] raises, it prints the session header and [No queries!] and returns normally, even when no session exists. *)
Theorem run_session_no_queries cs gs ra uq name :
  queries_truthy uq = false ->
  sent_messages (snd (run_session cs gs ra uq name [])) = []
  /\ ((exists s, cs name = inr s) \/ (exists o, gs name = inr o) ->
      run_session cs gs ra uq name []
      = (inr tt, [Printed (nl ++ " ### Session: " ++ name); Printed "No queries!"])).
Proof.
  intros Hq. unfold run_session, rbind, rprint. rewrite Hq.
  split.
  - destruct (cs name); [destruct (gs name)|]; reflexivity.
  - intros [[s Hs] | [o Ho]].
    + rewrite Hs. reflexivity.
    + destruct (cs name); [rewrite Ho|]; reflexivity.
Qed.


(** Every line [run_session] prints is the session header, [No queries!], a [User > ] line of a query, or an event line whose text is neither [None], the string [None] nor empty. *)
Theorem run_session_printed cs gs ra uq name :
  Forall (fun e => match e with
                   | Printed line =>
                       line = nl ++ " ### Session: " ++ name \/ line = "No queries!"
                       \/ (exists q, In q (as_list uq) /\ line = nl ++ "User > " ++ q)
                       \/ event_line ra line
                   | Sent _ _ => True
                   end)
    (snd (run_session cs gs ra uq name [])).
Proof.
  unfold run_session, rbind, rprint at 1.
  set (hdr := nl ++ " ### Session: " ++ name).
  assert (H0 : forall sess,
    Forall (fun e => match e with
                     | Printed line =>
                         line = hdr \/ line = "No queries!"
                         \/ (exists q, In q (as_list uq) /\ line = nl ++ "User > " ++ q)
                         \/ event_line ra line
                     | Sent _ _ => True
                     end)
      (snd ((if queries_truthy uq then process_queries ra sess (as_list uq)
             else rprint "No queries!") [Printed hdr]))).
  { intros sess. destruct (queries_truthy uq).
    - destruct (process_run ra sess (as_list uq) [Printed hdr]) as [res [out [Ho [Hl _]]]].
      rewrite Ho. cbn [snd]. apply Forall_forall. intros x Hx.
      destruct x as [line|]; [|exact I].
      destruct Hx as [Hx | Hx]; [injection Hx as <-; left; reflexivity|].
      destruct (Hl line Hx) as [H | H]; [right; right; left; exact H | right; right; right; exact H].
    - unfold rprint; cbn [snd app].
      constructor; [left; reflexivity|]. constructor; [right; left; reflexivity|]. constructor. }
  destruct (cs name) as [e|s]; [destruct (gs name) as [e'|o]|].
  - cbn [snd]. constructor; [left; reflexivity | constructor].
  - apply H0.
  - apply H0.
Qed.

(** When [create_session] fails and [get_session] returns [None], [run_session] with queries prints the header and the first [User > ] line, then raises [AttributeError] on [session.id] before anything is sent. *)
Theorem run_session_without_session cs gs ra uq name e :
  cs name = inl e -> gs name = inr None -> queries_truthy uq = true ->
  exists q rest, as_list uq = q :: rest
    /\ run_session cs gs ra uq name []
       = (inl (AttributeError "'NoneType' object has no attribute 'id'"),
          [Printed (nl ++ " ### Session: " ++ name); Printed (nl ++ "User > " ++ q)]).
Proof.
  intros Hc Hg Hq. destruct (truthy_as_list uq Hq) as [q [rest Hl]].
  exists q, rest. split; [exact Hl|].
  unfold run_session, rbind, rprint at 1. rewrite Hc, Hg, Hq, Hl. reflexivity.
Qed.


Lemma run_session_no_queries_witness :
  run_session create_fails get_nothing echo QNone "s1" []
  = (inr tt, [Printed (nl ++ " ### Session: " ++ "s1"); Printed "No queries!"]).
Proof.
  apply (proj2 (run_session_no_queries create_fails get_nothing echo QNone "s1" eq_refl)).
  right. exists None. reflexivity.
Defined.


Lemma run_session_without_session_witness :
  run_session create_fails get_nothing echo (QList ["hi"; "bye"]) "s1" []
  = (inl (AttributeError "'NoneType' object has no attribute 'id'"),
     [Printed (nl ++ " ### Session: " ++ "s1"); Printed (nl ++ "User > " ++ "hi")]).
Proof.
  destruct (run_session_without_session create_fails get_nothing echo (QList ["hi"; "bye"]) "s1"
              (ValueError ("Session " ++ "s1" ++ " already exists")) eq_refl eq_refl eq_refl)
    as [q [rest [Hl Hr]]].
  cbn in Hl. injection Hl as <- <-. exact Hr.
Defined.


End AgentExtras.

(** * Sample runs against the fixture provider *)
Module Tests.
Import Py Net Amadeus Fixtures.

Example happy_hotels :
  fst ((search_amadeus_hotels happy creds "PAR" "2025-01-01" "2025-01-02" 1 true 1000 5
         "EUR" "1-10000" 1 EmptyString [])) = inr (HOk (JObj [("data", JArr [JBool true])])).
Proof. vm_compute. reflexivity. Qed.

Example happy_flights :
  fst ((search_amadeus_flights happy creds "LHR" "TYO" "2025-01-01" 1 false None 0 0
         (Some "economy") 3 [])) = inr (JStr "{'data': [True]}").
Proof. vm_compute. reflexivity. Qed.

(** The runner raises for the second message: the exception leaves
    [run_session] and nothing more is printed. *)
Example agent_runner_raises :
  Agent.run_session Agent.create_ok Agent.get_nothing Agent.forgets
    (Agent.QList ["hi"; "bye"]) "s1" []
  = (inl (ValueError "Session not found: s1"),
     [Agent.Printed (Agent.nl ++ " ### Session: s1"); Agent.Printed (Agent.nl ++ "User > hi");
      Agent.Sent "s1" "hi"; Agent.Printed "agent >  re: hi";
      Agent.Printed (Agent.nl ++ "User > bye"); Agent.Sent "s1" "bye"]).
Proof. vm_compute. reflexivity. Qed.

End Tests.
